(** * A shallow embedding of the h3-java JNI binding (src/main/c/h3-java/src/jniapi.c)

    The binding marshals Java arrays into native buffers, calls the H3 C
    library and turns its [H3Error] codes into Java exceptions.  The H3 C
    library itself is not part of the binding: it is a record of functions
    [H3Lib] that every wrapper is parameterised by.  The JNI environment is an
    explicit state: Java primitive arrays, Java objects, the buffers handed out
    by [Get<T>ArrayElements], the pending exception and a log of the native
    calls made.  Whether an allocation request (a [NewObject], a
    [Get<T>ArrayElements] copy, a [calloc], an [ArrayList.add]) fails is decided
    by an oracle [alloc_fails].  Undefined behaviour (an out-of-bounds store,
    releasing a pointer that is not a live pinned buffer) makes a run [Crash]. *)

From Stdlib Require Import ZArith String List Bool Lia.
Import ListNotations.
Open Scope Z_scope.

(** ** Types of h3api.h *)

Definition H3Error := Z.
Definition E_SUCCESS : H3Error := 0.
Definition E_RES_DOMAIN : H3Error := 4.
Definition E_CELL_INVALID : H3Error := 5.
Definition E_MEMORY_ALLOC : H3Error := 13.
Definition E_MEMORY_BOUNDS : H3Error := 14.

(** [if (err)] in C *)
Definition is_err (e : H3Error) : bool := negb (Z.eqb e 0).

Definition H3Index := Z.

(** A [double] is carried as its IEEE-754 bit pattern: the binding never
    computes with doubles, it only copies them. *)
Definition jdouble := Z.

Record LatLng := mkLatLng { lat : jdouble; lng : jdouble }.

Record CoordIJ := mkCoordIJ { ij_i : Z; ij_j : Z }.

Definition MAX_CELL_BNDRY_VERTS : nat := 10.

(** [CellBoundary]: [int numVerts; LatLng verts[MAX_CELL_BNDRY_VERTS]] *)
Record CellBoundary := mkCellBoundary { cb_numVerts : Z; cb_verts : list LatLng }.

(** The well-formedness the H3 library guarantees for the boundaries it
    returns: the fixed array has its 10 slots and [0 <= numVerts <= 10]. *)
Definition cb_wf (b : CellBoundary) : Prop :=
  length (cb_verts b) = MAX_CELL_BNDRY_VERTS /\ 0 <= cb_numVerts b <= 10.

(** A polygon as the native library reads it through the [GeoPolygon]
    pointers: the outer loop and the holes. *)
Definition Polygon := (list LatLng * list (list LatLng))%type.

(** A [LinkedGeoPolygon] node: its loops, each an ordered list of vertices. *)
Definition LinkedGeoPolygon := list (list LatLng).

(** ** The JNI environment *)

Inductive jval := JDouble (d : jdouble) | JLong (z : Z) | JInt (z : Z).

Definition jz (v : jval) : Z :=
  match v with JDouble d => d | JLong z => z | JInt z => z end.

(** A native pointer: [NULL] or an element of a pinned buffer. *)
Inductive Ptr := NULL | PBuf (b : nat) (off : Z).

Definition is_null (p : Ptr) : bool := match p with NULL => true | _ => false end.

Definition ptr_add (p : Ptr) (k : Z) : Ptr :=
  match p with NULL => NULL | PBuf b off => PBuf b (off + k) end.

(** The buffer returned by [Get<T>ArrayElements]: a copy of the array. *)
Record Buffer := mkBuffer { buf_array : nat; buf_data : list jval }.

(** Release modes: [0] copies the buffer back and frees it, [JNI_ABORT]
    frees it without copying back. *)
Inductive ReleaseMode := MODE_COPY_BACK | JNI_ABORT.

Inductive Exn := ExH3 (code : H3Error) | ExOOM.

Inductive JObj :=
| OThrowable (e : Exn)
| OArrayList (elems : list nat)
| OLatLng (la lo : jdouble).

(** One call of a fallible function of the H3 library: its name, the
    capacity argument it was given (if its signature has one) and the error
    code it returned. *)
Inductive Event := Called (fn : string) (cap : option Z) (err : H3Error).

Definition ev_err (e : Event) : H3Error := match e with Called _ _ r => r end.

Record JState := mkJState {
  arrays : list (list jval);
  objects : list JObj;
  buffers : list (option Buffer);
  pending : option Exn;
  allocs : nat;
  calls : list Event
}.

Inductive Fault :=
| OutOfBounds (b : nat) (i : Z)
| BadPointer
| BadRelease
| BadArray
| BadObject
| BadRead.

Inductive Outcome (A : Type) := Crash (f : Fault) | Done (a : A) (s : JState).
Arguments Crash {A} f.
Arguments Done {A} a s.

Definition M (A : Type) := JState -> Outcome A.

Definition ret {A} (a : A) : M A := fun s => Done a s.
Definition bind {A B} (m : M A) (k : A -> M B) : M B :=
  fun s => match m s with Crash f => Crash f | Done a s' => k a s' end.
Definition crash {A} (f : Fault) : M A := fun _ => Crash f.

Notation "x <- m ;; k" := (bind m (fun x => k))
  (at level 61, m at next level, right associativity).
Notation "m ;;; k" := (bind m (fun _ => k))
  (at level 61, right associativity).

(** ** Pure list helpers *)

Fixpoint replace_nth {A} (l : list A) (n : nat) (x : A) : list A :=
  match l, n with
  | [], _ => []
  | _ :: l', O => x :: l'
  | y :: l', S n' => y :: replace_nth l' n' x
  end.

Fixpoint write_at {A} (l : list A) (n : nat) (xs : list A) : list A :=
  match xs with
  | [] => l
  | x :: xs' => write_at (replace_nth l n x) (S n) xs'
  end.

(** ** State updates *)

Definition set_arrays (s : JState) a :=
  mkJState a (objects s) (buffers s) (pending s) (allocs s) (calls s).
Definition set_objects (s : JState) o :=
  mkJState (arrays s) o (buffers s) (pending s) (allocs s) (calls s).
Definition set_buffers (s : JState) b :=
  mkJState (arrays s) (objects s) b (pending s) (allocs s) (calls s).
Definition set_pending (s : JState) p :=
  mkJState (arrays s) (objects s) (buffers s) p (allocs s) (calls s).
Definition set_allocs (s : JState) n :=
  mkJState (arrays s) (objects s) (buffers s) (pending s) n (calls s).
Definition set_calls (s : JState) c :=
  mkJState (arrays s) (objects s) (buffers s) (pending s) (allocs s) c.

(** ** The H3 C library, as seen by the binding

    Each fallible function returns its [H3Error] together with what it writes
    through its output pointer.  A scalar output is [Some v] when the function
    wrote [v] and [None] when it left the output untouched; a struct output
    ([LatLng], [CoordIJ], [CellBoundary]) is read by the binding only on
    success; an output array is the list of elements written from index 0 on,
    through a pointer that carries no length. *)

Record H3Lib := mkH3Lib {
  constructCell : Z -> Z -> list Z -> H3Error * option H3Index;
  latLngToCell : LatLng -> Z -> H3Error * option H3Index;
  cellToLatLng : H3Index -> H3Error * LatLng;
  cellToBoundary : H3Index -> H3Error * CellBoundary;
  maxGridDiskSize : Z -> H3Error * option Z;
  gridDisk : H3Index -> Z -> H3Error * list H3Index;
  gridDiskDistances : H3Index -> Z -> H3Error * (list H3Index * list Z);
  gridDiskUnsafe : H3Index -> Z -> H3Error * list H3Index;
  gridRing : H3Index -> Z -> H3Error * list H3Index;
  gridRingUnsafe : H3Index -> Z -> H3Error * list H3Index;
  gridDistance : H3Index -> H3Index -> H3Error * option Z;
  cellToLocalIj : H3Index -> H3Index -> Z -> H3Error * CoordIJ;
  localIjToCell : H3Index -> CoordIJ -> Z -> H3Error * option H3Index;
  gridPathCellsSize : H3Index -> H3Index -> H3Error * option Z;
  gridPathCells : H3Index -> H3Index -> H3Error * list H3Index;
  maxPolygonToCellsSize : Polygon -> Z -> Z -> H3Error * option Z;
  maxPolygonToCellsSizeExperimental : Polygon -> Z -> Z -> H3Error * option Z;
  res0CellCount : Z;
  pentagonCount : Z;
  getRes0Cells : H3Error * list H3Index;
  getPentagons : Z -> H3Error * list H3Index;
  polygonToCells : Polygon -> Z -> Z -> H3Error * list H3Index;
  polygonToCellsExperimental : Polygon -> Z -> Z -> Z -> H3Error * list H3Index;
  cellsToLinkedMultiPolygon :
    list H3Index -> H3Error * (LinkedGeoPolygon * list LinkedGeoPolygon);
  cellToChildrenSize : H3Index -> Z -> H3Error * option Z;
  cellToChildren : H3Index -> Z -> H3Error * list H3Index;
  cellToCenterChild : H3Index -> Z -> H3Error * option H3Index;
  compactCells : list H3Index -> H3Error * list H3Index;
  uncompactCellsSize : list H3Index -> Z -> H3Error * option Z;
  uncompactCells : list H3Index -> Z -> Z -> H3Error * list H3Index;
  cellAreaRads2 : H3Index -> H3Error * option jdouble;
  cellAreaKm2 : H3Index -> H3Error * option jdouble;
  cellAreaM2 : H3Index -> H3Error * option jdouble;
  edgeLengthRads : H3Index -> H3Error * option jdouble;
  edgeLengthKm : H3Index -> H3Error * option jdouble;
  edgeLengthM : H3Index -> H3Error * option jdouble;
  getHexagonAreaAvgKm2 : Z -> H3Error * option jdouble;
  getHexagonAreaAvgM2 : Z -> H3Error * option jdouble;
  getHexagonEdgeLengthAvgKm : Z -> H3Error * option jdouble;
  getHexagonEdgeLengthAvgM : Z -> H3Error * option jdouble;
  getNumCells : Z -> H3Error * option Z;
  areNeighborCells : H3Index -> H3Index -> H3Error * option Z;
  cellsToDirectedEdge : H3Index -> H3Index -> H3Error * option H3Index;
  getDirectedEdgeOrigin : H3Index -> H3Error * option H3Index;
  getDirectedEdgeDestination : H3Index -> H3Error * option H3Index;
  directedEdgeToCells : H3Index -> H3Error * list H3Index;
  originToDirectedEdges : H3Index -> H3Error * list H3Index;
  directedEdgeToBoundary : H3Index -> H3Error * CellBoundary;
  maxFaceCount : H3Index -> H3Error * option Z;
  getIcosahedronFaces : H3Index -> H3Error * list Z;
  cellToVertex : H3Index -> Z -> H3Error * option H3Index;
  cellToVertexes : H3Index -> H3Error * list H3Index;
  vertexToLatLng : H3Index -> H3Error * LatLng;
  cellToChildPos : H3Index -> Z -> H3Error * option Z;
  childPosToCell : Z -> H3Index -> Z -> H3Error * option H3Index
}.

(** [GeoLoop] and [GeoPolygon] of h3api.h: lengths and pointers. *)
Record GeoLoop := mkGeoLoop { gl_numVerts : Z; gl_verts : Ptr }.
Record GeoPolygon := mkGeoPolygon {
  geoloop : GeoLoop; numHoles : Z; holes : list GeoLoop }.

(** An output variable: [Some v] when [v] was stored, [None] while it is
    uninitialised.  [written init w] is its value after a call that wrote [w]. *)
Definition written {X} (init : option X) (w : option X) : option X :=
  match w with Some v => Some v | None => init end.

(** ** JNI functions *)

Section JNI.

Variable alloc_fails : nat -> bool.

(** One allocation request; [true] when it succeeds. *)
Definition alloc : M bool :=
  fun s => Done (negb (alloc_fails (allocs s))) (set_allocs s (S (allocs s))).

Definition GetArrayLength (a : nat) : M Z :=
  fun s => match nth_error (arrays s) a with
           | Some l => Done (Z.of_nat (length l)) s
           | None => Crash BadArray
           end.

(** [Get<T>ArrayElements(env, a, 0)]: a fresh copy of the array, or [NULL]
    when the copy cannot be allocated. *)
Definition GetArrayElements (a : nat) : M Ptr :=
  ok <- alloc ;;
  if ok then
    fun s => match nth_error (arrays s) a with
             | Some l =>
                 Done (PBuf (length (buffers s)) 0)
                      (set_buffers s (buffers s ++ [Some (mkBuffer a l)]))
             | None => Crash BadArray
             end
  else ret NULL.

(** [Release<T>ArrayElements(env, a, p, mode)]: [p] must be a live buffer
    pinned from [a]; anything else is undefined behaviour. *)
Definition ReleaseArrayElements (a : nat) (p : Ptr) (mode : ReleaseMode) : M unit :=
  fun s => match p with
           | PBuf b Z0 =>
               match nth_error (buffers s) b with
               | Some (Some buf) =>
                   if Nat.eqb (buf_array buf) a then
                     let s1 := set_buffers s (replace_nth (buffers s) b None) in
                     match mode with
                     | MODE_COPY_BACK =>
                         Done tt (set_arrays s1 (replace_nth (arrays s1) a (buf_data buf)))
                     | JNI_ABORT => Done tt s1
                     end
                   else Crash BadRelease
               | _ => Crash BadRelease
               end
           | _ => Crash BadRelease
           end.

(** [p[i] = v] *)
Definition store (p : Ptr) (i : Z) (v : jval) : M unit :=
  fun s => match p with
           | NULL => Crash BadPointer
           | PBuf b off =>
               match nth_error (buffers s) b with
               | Some (Some buf) =>
                   let k := off + i in
                   if (0 <=? k) && (k <? Z.of_nat (length (buf_data buf))) then
                     Done tt (set_buffers s (replace_nth (buffers s) b
                       (Some (mkBuffer (buf_array buf)
                                (replace_nth (buf_data buf) (Z.to_nat k) v)))))
                   else Crash (OutOfBounds b k)
               | _ => Crash BadPointer
               end
           end.

(** A native function storing [vs] at [p[0]], [p[1]], ...: undefined
    behaviour as soon as one store falls outside the buffer. *)
Definition store_all (p : Ptr) (vs : list jval) : M unit :=
  fun s => match p with
           | NULL => Crash BadPointer
           | PBuf b off =>
               match nth_error (buffers s) b with
               | Some (Some buf) =>
                   if (0 <=? off) &&
                      (off + Z.of_nat (length vs) <=? Z.of_nat (length (buf_data buf))) then
                     Done tt (set_buffers s (replace_nth (buffers s) b
                       (Some (mkBuffer (buf_array buf)
                                (write_at (buf_data buf) (Z.to_nat off) vs)))))
                   else Crash (OutOfBounds b (Z.max off (Z.of_nat (length (buf_data buf)))))
               | _ => Crash BadPointer
               end
           end.

(** [p[0..n-1]] read by a native function. *)
Definition load_all (p : Ptr) (n : Z) : M (list jval) :=
  fun s => match p with
           | NULL => Crash BadPointer
           | PBuf b off =>
               match nth_error (buffers s) b with
               | Some (Some buf) =>
                   if (0 <=? off) && (off + n <=? Z.of_nat (length (buf_data buf))) then
                     Done (firstn (Z.to_nat n) (skipn (Z.to_nat off) (buf_data buf))) s
                   else Crash (OutOfBounds b (Z.max off (Z.of_nat (length (buf_data buf)))))
               | _ => Crash BadPointer
               end
           end.

(** The whole buffer from [p] on, as a native function reading through a
    pointer without a length sees it. *)
Definition read_buffer (p : Ptr) : M (list jval) :=
  fun s => match p with
           | NULL => Crash BadPointer
           | PBuf b off =>
               match nth_error (buffers s) b with
               | Some (Some buf) => Done (skipn (Z.to_nat off) (buf_data buf)) s
               | _ => Crash BadPointer
               end
           end.

(** [NewObject]: a new local reference, or [NULL] with the JVM's
    [OutOfMemoryError] pending when the object cannot be allocated. *)
Definition NewObject (o : JObj) : M (option nat) :=
  ok <- alloc ;;
  if ok then
    fun s => Done (Some (length (objects s))) (set_objects s (objects s ++ [o]))
  else
    fun s => Done None (set_pending s (Some ExOOM)).

Definition Throw (h : nat) : M unit :=
  fun s => match nth_error (objects s) h with
           | Some (OThrowable e) => Done tt (set_pending s (Some e))
           | _ => Crash BadObject
           end.

Definition ExceptionClear : M unit := fun s => Done tt (set_pending s None).

Definition ExceptionCheck : M bool :=
  fun s => Done (match pending s with Some _ => true | None => false end) s.

(** Local references are not modelled. *)
Definition DeleteLocalRef (h : nat) : M unit := ret tt.

(** [CallBooleanMethod(env, list, java_util_ArrayList_add, v)]; growing the
    list may fail with an [OutOfMemoryError]. *)
Definition ArrayList_add (l v : nat) : M unit :=
  ok <- alloc ;;
  if ok then
    fun s => match nth_error (objects s) l with
             | Some (OArrayList xs) =>
                 Done tt (set_objects s (replace_nth (objects s) l (OArrayList (xs ++ [v]))))
             | _ => Crash BadObject
             end
  else
    fun s => Done tt (set_pending s (Some ExOOM)).

(** [calloc]: [true] when the block was allocated. *)
Definition calloc : M bool := alloc.

(** A call of a fallible H3 function: logged with its result. *)
Definition log_call (fn : string) (cap : option Z) (err : H3Error) : M H3Error :=
  fun s => Done err (set_calls s (calls s ++ [Called fn cap err])).

End JNI.

(** What the native library reads through a pointer: [n] elements of a live
    buffer from [p] on, or [None] when they are not all inside it. *)
Definition buffer_slice (bs : list (option Buffer)) (p : Ptr) (n : Z) : option (list jval) :=
  match p with
  | NULL => None
  | PBuf b off =>
      match nth_error bs b with
      | Some (Some buf) =>
          if (0 <=? off) && (off + n <=? Z.of_nat (length (buf_data buf)))
          then Some (firstn (Z.to_nat n) (skipn (Z.to_nat off) (buf_data buf)))
          else None
      | _ => None
      end
  end.

(** A [LatLng *] array read as consecutive (lat, lng) doubles. *)
Fixpoint pair_up (vs : list jval) : list LatLng :=
  match vs with
  | a :: b :: r => mkLatLng (jz a) (jz b) :: pair_up r
  | _ => []
  end.

Definition read_geoloop (bs : list (option Buffer)) (l : GeoLoop) : option (list LatLng) :=
  option_map pair_up (buffer_slice bs (gl_verts l) (2 * Z.max 0 (gl_numVerts l))).

Fixpoint read_holes (bs : list (option Buffer)) (hs : list GeoLoop)
  : option (list (list LatLng)) :=
  match hs with
  | [] => Some []
  | h :: hs' =>
      match read_geoloop bs h, read_holes bs hs' with
      | Some l, Some ls => Some (l :: ls)
      | _, _ => None
      end
  end.

(** The polygon the native library sees through a [GeoPolygon *]. *)
Definition read_polygon (p : GeoPolygon) : M Polygon :=
  fun s => match read_geoloop (buffers s) (geoloop p),
                 read_holes (buffers s) (firstn (Z.to_nat (numHoles p)) (holes p)) with
           | Some o, Some hs => Done (o, hs) s
           | _, _ => Crash BadRead
           end.

(** [holes[i].numVerts = holeSizesElements[i] / 2;
     holes[i].verts = holeVertsElements + offset; offset += holeSizesElements[i];]
    ([/] on [int] truncates towards zero: [Z.quot]). *)
Fixpoint hole_loop (holeVertsElements : Ptr) (sizes : list Z) (offset : Z) : list GeoLoop :=
  match sizes with
  | [] => []
  | sz :: rest =>
      mkGeoLoop (Z.quot sz 2) (ptr_add holeVertsElements offset)
        :: hole_loop holeVertsElements rest (offset + sz)
  end.

(** The layout the specification describes: hole [i] starts at the sum of the
    sizes of the holes before it. *)
Definition hole_offset (sizes : list Z) (i : nat) : Z := fold_right Z.add 0 (firstn i sizes).

(** ** The binding (jniapi.c) *)

Section Binding.

Variable h3 : H3Lib.
Variable alloc_fails : nat -> bool.

Local Abbreviation alloc := (alloc alloc_fails).
Local Abbreviation GetArrayElements := (GetArrayElements alloc_fails).
Local Abbreviation NewObject := (NewObject alloc_fails).
Local Abbreviation ArrayList_add := (ArrayList_add alloc_fails).
Local Abbreviation calloc := (calloc alloc_fails).

Definition ThrowH3Exception (err : H3Error) : M unit :=
  h3eInstance <- NewObject (OThrowable (ExH3 err)) ;;
  match h3eInstance with
  | Some h => Throw h ;;; DeleteLocalRef h
  | None => ret tt
  end.

Definition ThrowOutOfMemoryError : M unit :=
  oomeInstance <- NewObject (OThrowable ExOOM) ;;
  match oomeInstance with
  | Some h => ExceptionClear ;;; Throw h ;;; DeleteLocalRef h
  | None => ret tt
  end.

(** [if (err) { ThrowH3Exception(env, err); }] *)
Definition throw_if (err : H3Error) : M unit :=
  if is_err err then ThrowH3Exception err else ret tt.

(** A call of an H3 function that writes its array output through [p]. *)
Definition native_fill (fn : string) (cap : option Z) (p : Ptr)
  (r : H3Error * list jval) : M H3Error :=
  err <- log_call fn cap (fst r) ;;
  store_all p (snd r) ;;;
  ret err.

(** [T out; H3Error err = f(..., &out); if (err) ThrowH3Exception(env, err);
     return out;] *)
Definition scalar_call {X} (fn : string) (r : H3Error * option X) : M (option X) :=
  err <- log_call fn None (fst r) ;;
  let out := written None (snd r) in
  throw_if err ;;;
  ret out.

(** [jlong *resultsElements = Get...(results); if (resultsElements != NULL)
     { err = f(..., resultsElements); Release...(results, resultsElements, 0);
       if (err) ThrowH3Exception(env, err); } else ThrowOutOfMemoryError(env);] *)
Definition fill_call (fn : string) (results : nat) (r : H3Error * list jval) : M unit :=
  resultsElements <- GetArrayElements results ;;
  if negb (is_null resultsElements) then
    err <- native_fill fn None resultsElements r ;;
    ReleaseArrayElements results resultsElements MODE_COPY_BACK ;;;
    throw_if err
  else ThrowOutOfMemoryError.

Definition longs (r : H3Error * list Z) : H3Error * list jval := (fst r, map JLong (snd r)).
Definition ints (r : H3Error * list Z) : H3Error * list jval := (fst r, map JInt (snd r)).

(** The polygon marshalling: [CreateGeoPolygon] returns its error code and the
    [GeoPolygon] it filled in. *)
Definition CreateGeoPolygon (verts holeSizes holeVerts : nat) : M (H3Error * GeoPolygon) :=
  n <- GetArrayLength verts ;;
  let numVerts := Z.quot n 2 in
  vertsElements <- GetArrayElements verts ;;
  let outer := mkGeoLoop numVerts vertsElements in
  if negb (is_null vertsElements) then
    numHoles <- GetArrayLength holeSizes ;;
    if 0 <? numHoles then
      ok <- calloc ;;
      if negb ok then
        ReleaseArrayElements verts vertsElements JNI_ABORT ;;;
        ThrowOutOfMemoryError ;;;
        ret (E_MEMORY_ALLOC, mkGeoPolygon outer numHoles [])
      else
        holeSizesElements <- GetArrayElements holeSizes ;;
        if is_null holeSizesElements then
          ReleaseArrayElements verts vertsElements JNI_ABORT ;;;
          ThrowOutOfMemoryError ;;;
          ret (E_MEMORY_ALLOC, mkGeoPolygon outer numHoles [])
        else
          holeVertsElements <- GetArrayElements holeVerts ;;
          if is_null holeVertsElements then
            ReleaseArrayElements verts vertsElements JNI_ABORT ;;;
            ReleaseArrayElements holeSizes holeSizesElements JNI_ABORT ;;;
            ThrowOutOfMemoryError ;;;
            ret (E_MEMORY_ALLOC, mkGeoPolygon outer numHoles [])
          else
            sizes <- load_all holeSizesElements numHoles ;;
            let hs := hole_loop holeVertsElements (map jz sizes) 0 in
            ReleaseArrayElements holeSizes holeSizesElements JNI_ABORT ;;;
            ret (E_SUCCESS, mkGeoPolygon outer numHoles hs)
    else ret (E_SUCCESS, mkGeoPolygon outer numHoles [])
  else
    ThrowOutOfMemoryError ;;;
    ret (E_MEMORY_ALLOC, mkGeoPolygon outer 0 []).

Definition DestroyGeoPolygon (verts holeSizes holeVerts : nat) (polygon : GeoPolygon) : M unit :=
  ReleaseArrayElements verts (gl_verts (geoloop polygon)) JNI_ABORT ;;;
  if 0 <? numHoles polygon then
    match holes polygon with
    | h0 :: _ => ReleaseArrayElements holeVerts (gl_verts h0) JNI_ABORT
    | [] => crash BadRead
    end
  else ret tt.

(** *** Index codec and coordinate transform *)

Definition Java_com_uber_h3core_NativeMethods_constructCell
  (res baseCell : Z) (digits : nat) : M (option H3Index) :=
  let result := Some 0 in
  digitsElements <- GetArrayElements digits ;;
  if negb (is_null digitsElements) then
    ds <- read_buffer digitsElements ;;
    let r := constructCell h3 res baseCell (map jz ds) in
    err <- log_call "constructCell" None (fst r) ;;
    let result := written result (snd r) in
    ReleaseArrayElements digits digitsElements MODE_COPY_BACK ;;;
    throw_if err ;;;
    ret result
  else
    ThrowOutOfMemoryError ;;;
    ret result.

Definition Java_com_uber_h3core_NativeMethods_latLngToCell
  (la lo : jdouble) (res : Z) : M (option H3Index) :=
  scalar_call "latLngToCell" (latLngToCell h3 (mkLatLng la lo) res).

Definition Java_com_uber_h3core_NativeMethods_cellToLatLng (h : H3Index) (verts : nat) : M unit :=
  let r := cellToLatLng h3 h in
  err <- log_call "cellToLatLng" None (fst r) ;;
  let coord := snd r in
  if is_err err then ThrowH3Exception err
  else
    sz <- GetArrayLength verts ;;
    coordsElements <- GetArrayElements verts ;;
    if negb (is_null coordsElements) then
      (if 2 <=? sz then
         store coordsElements 0 (JDouble (lat coord)) ;;;
         store coordsElements 1 (JDouble (lng coord))
       else ret tt) ;;;
      ReleaseArrayElements verts coordsElements MODE_COPY_BACK
    else ThrowOutOfMemoryError.

(** [for (jsize i = 0; i < sz && i < boundary.numVerts * 2; i += 2)
       { vertsElements[i] = boundary.verts[i / 2].lat;
         vertsElements[i + 1] = boundary.verts[i / 2].lng; }]
    The loop runs at most [numVerts] times, the fuel it is given. *)
Fixpoint boundary_loop (vertsElements : Ptr) (sz : Z) (boundary : CellBoundary)
  (i : Z) (fuel : nat) : M unit :=
  match fuel with
  | O => ret tt
  | S fuel' =>
      if (i <? sz) && (i <? cb_numVerts boundary * 2) then
        match nth_error (cb_verts boundary) (Z.to_nat (i / 2)) with
        | Some v =>
            store vertsElements i (JDouble (lat v)) ;;;
            store vertsElements (i + 1) (JDouble (lng v)) ;;;
            boundary_loop vertsElements sz boundary (i + 2) fuel'
        | None => crash BadRead
        end
      else ret tt
  end.

(** The common body of [cellToBoundary] and [directedEdgeToBoundary]. *)
Definition boundary_call (fn : string) (r : H3Error * CellBoundary) (verts : nat) : M Z :=
  err <- log_call fn None (fst r) ;;
  let boundary := snd r in
  if is_err err then
    ThrowH3Exception err ;;;
    ret (-1)
  else
    sz <- GetArrayLength verts ;;
    vertsElements <- GetArrayElements verts ;;
    if negb (is_null vertsElements) then
      boundary_loop vertsElements sz boundary 0 (Z.to_nat (cb_numVerts boundary)) ;;;
      ReleaseArrayElements verts vertsElements MODE_COPY_BACK ;;;
      ret (cb_numVerts boundary)
    else
      ThrowOutOfMemoryError ;;;
      ret (-1).

Definition Java_com_uber_h3core_NativeMethods_cellToBoundary (h : H3Index) (verts : nat) : M Z :=
  boundary_call "cellToBoundary" (cellToBoundary h3 h) verts.

(** *** Grid traversal *)

Definition Java_com_uber_h3core_NativeMethods_maxGridDiskSize (k : Z) : M (option Z) :=
  scalar_call "maxGridDiskSize" (maxGridDiskSize h3 k).

Definition Java_com_uber_h3core_NativeMethods_gridDisk (h k : Z) (results : nat) : M unit :=
  fill_call "gridDisk" results (longs (gridDisk h3 h k)).

Definition Java_com_uber_h3core_NativeMethods_gridDiskDistances
  (h k : Z) (results distances : nat) : M unit :=
  resultsElements <- GetArrayElements results ;;
  st <- (if negb (is_null resultsElements) then
           distancesElements <- GetArrayElements distances ;;
           st <- (if negb (is_null distancesElements) then
                    let r := gridDiskDistances h3 h k in
                    err <- log_call "gridDiskDistances" None (fst r) ;;
                    store_all resultsElements (map JLong (fst (snd r))) ;;;
                    store_all distancesElements (map JInt (snd (snd r))) ;;;
                    ReleaseArrayElements results resultsElements MODE_COPY_BACK ;;;
                    ret (err, false)
                  else ret (E_SUCCESS, true)) ;;
           ReleaseArrayElements distances distancesElements MODE_COPY_BACK ;;;
           ret st
         else ret (E_SUCCESS, true)) ;;
  let (err, isOom) := st in
  if isOom then ThrowOutOfMemoryError
  else throw_if err.

Definition Java_com_uber_h3core_NativeMethods_gridDiskUnsafe (h k : Z) (results : nat) : M unit :=
  fill_call "gridDiskUnsafe" results (longs (gridDiskUnsafe h3 h k)).

Definition Java_com_uber_h3core_NativeMethods_gridRing (h k : Z) (results : nat) : M unit :=
  fill_call "gridRing" results (longs (gridRing h3 h k)).

Definition Java_com_uber_h3core_NativeMethods_gridRingUnsafe (h k : Z) (results : nat) : M unit :=
  fill_call "gridRingUnsafe" results (longs (gridRingUnsafe h3 h k)).

Definition Java_com_uber_h3core_NativeMethods_gridDistance (a b : H3Index) : M (option Z) :=
  scalar_call "gridDistance" (gridDistance h3 a b).

Definition Java_com_uber_h3core_NativeMethods_cellToLocalIj
  (origin h : H3Index) (coords : nat) : M unit :=
  let r := cellToLocalIj h3 origin h 0 in
  err <- log_call "cellToLocalIj" None (fst r) ;;
  let ij := snd r in
  if is_err err then ThrowH3Exception err
  else
    sz <- GetArrayLength coords ;;
    coordsElements <- GetArrayElements coords ;;
    if negb (is_null coordsElements) then
      (if 2 <=? sz then
         store coordsElements 0 (JInt (ij_i ij)) ;;;
         store coordsElements 1 (JInt (ij_j ij))
       else ret tt) ;;;
      ReleaseArrayElements coords coordsElements MODE_COPY_BACK
    else ThrowOutOfMemoryError.

Definition Java_com_uber_h3core_NativeMethods_localIjToCell
  (origin : H3Index) (i j : Z) : M (option H3Index) :=
  scalar_call "localIjToCell" (localIjToCell h3 origin (mkCoordIJ i j) 0).

Definition Java_com_uber_h3core_NativeMethods_gridPathCellsSize (start end_ : H3Index) : M (option Z) :=
  scalar_call "gridPathCellsSize" (gridPathCellsSize h3 start end_).

Definition Java_com_uber_h3core_NativeMethods_gridPathCells
  (start end_ : H3Index) (results : nat) : M unit :=
  fill_call "gridPathCells" results (longs (gridPathCells h3 start end_)).

(** *** Polygon rasterizer *)

Definition Java_com_uber_h3core_NativeMethods_maxPolygonToCellsSize
  (verts holeSizes holeVerts : nat) (res flags : Z) : M (option Z) :=
  cp <- CreateGeoPolygon verts holeSizes holeVerts ;;
  let (e, polygon) := cp in
  if is_err e then ret (Some (-1))
  else
    poly <- read_polygon polygon ;;
    let r := maxPolygonToCellsSize h3 poly res flags in
    err <- log_call "maxPolygonToCellsSize" None (fst r) ;;
    let numHexagons := written None (snd r) in
    DestroyGeoPolygon verts holeSizes holeVerts polygon ;;;
    throw_if err ;;;
    ret numHexagons.

Definition Java_com_uber_h3core_NativeMethods_maxPolygonToCellsSizeExperimental
  (verts holeSizes holeVerts : nat) (res flags : Z) : M (option Z) :=
  cp <- CreateGeoPolygon verts holeSizes holeVerts ;;
  let (e, polygon) := cp in
  if is_err e then ret (Some (-1))
  else
    poly <- read_polygon polygon ;;
    let r := maxPolygonToCellsSizeExperimental h3 poly res flags in
    err <- log_call "maxPolygonToCellsSizeExperimental" None (fst r) ;;
    let numHexagons := written None (snd r) in
    DestroyGeoPolygon verts holeSizes holeVerts polygon ;;;
    throw_if err ;;;
    ret numHexagons.

Definition Java_com_uber_h3core_NativeMethods_getRes0Cells (results : nat) : M unit :=
  size <- GetArrayLength results ;;
  if size <? res0CellCount h3 then ThrowOutOfMemoryError
  else fill_call "getRes0Cells" results (longs (getRes0Cells h3)).

Definition Java_com_uber_h3core_NativeMethods_getPentagons (res : Z) (results : nat) : M unit :=
  size <- GetArrayLength results ;;
  if size <? pentagonCount h3 then ThrowOutOfMemoryError
  else fill_call "getPentagons" results (longs (getPentagons h3 res)).

Definition Java_com_uber_h3core_NativeMethods_polygonToCells
  (verts holeSizes holeVerts : nat) (res flags : Z) (results : nat) : M unit :=
  cp <- CreateGeoPolygon verts holeSizes holeVerts ;;
  let (e, polygon) := cp in
  if is_err e then ret tt
  else
    resultsElements <- GetArrayElements results ;;
    err <- (if negb (is_null resultsElements) then
              poly <- read_polygon polygon ;;
              err <- native_fill "polygonToCells" None resultsElements
                       (longs (polygonToCells h3 poly res flags)) ;;
              ReleaseArrayElements results resultsElements MODE_COPY_BACK ;;;
              ret err
            else
              ThrowOutOfMemoryError ;;;
              ret E_SUCCESS) ;;
    DestroyGeoPolygon verts holeSizes holeVerts polygon ;;;
    throw_if err.

Definition Java_com_uber_h3core_NativeMethods_polygonToCellsExperimental
  (verts holeSizes holeVerts : nat) (res flags : Z) (results : nat) : M unit :=
  cp <- CreateGeoPolygon verts holeSizes holeVerts ;;
  let (e, polygon) := cp in
  if is_err e then ret tt
  else
    resultsElements <- GetArrayElements results ;;
    resultsSize <- GetArrayLength results ;;
    err <- (if negb (is_null resultsElements) then
              poly <- read_polygon polygon ;;
              err <- native_fill "polygonToCellsExperimental" (Some resultsSize) resultsElements
                       (longs (polygonToCellsExperimental h3 poly res flags resultsSize)) ;;
              ReleaseArrayElements results resultsElements MODE_COPY_BACK ;;;
              ret err
            else
              ThrowOutOfMemoryError ;;;
              ret E_SUCCESS) ;;
    DestroyGeoPolygon verts holeSizes holeVerts polygon ;;;
    throw_if err.

(** *** Region-to-boundary extractor *)

(** [ConvertLinkedGeoPolygonToManaged], one loop at a time; [false] when the
    C code returns early. *)
Fixpoint convert_coords (resultLoop : nat) (coords : list LatLng) : M bool :=
  match coords with
  | [] => ret true
  | c :: coords' =>
      v <- NewObject (OLatLng (lat c) (lng c)) ;;
      match v with
      | None => ret false
      | Some v =>
          ArrayList_add resultLoop v ;;;
          exc <- ExceptionCheck ;;
          if exc then ret false else convert_coords resultLoop coords'
      end
  end.

Fixpoint convert_loops (resultLoops : nat) (loops : list (list LatLng)) : M bool :=
  match loops with
  | [] => ret true
  | l :: loops' =>
      resultLoop <- NewObject (OArrayList []) ;;
      match resultLoop with
      | None => ret false
      | Some rl =>
          cont <- convert_coords rl l ;;
          if cont then
            ArrayList_add resultLoops rl ;;;
            exc <- ExceptionCheck ;;
            if exc then ret false else convert_loops resultLoops loops'
          else ret false
      end
  end.

Fixpoint ConvertLinkedGeoPolygonToManaged (polygons : list LinkedGeoPolygon) (results : nat)
  : M unit :=
  match polygons with
  | [] => ret tt
  | p :: polygons' =>
      resultLoops <- NewObject (OArrayList []) ;;
      match resultLoops with
      | None => ret tt
      | Some rl =>
          match p with
          | [] => ConvertLinkedGeoPolygonToManaged polygons' results
          | _ :: _ =>
              cont <- convert_loops rl p ;;
              if cont then
                ArrayList_add results rl ;;;
                exc <- ExceptionCheck ;;
                if exc then ret tt else ConvertLinkedGeoPolygonToManaged polygons' results
              else ret tt
          end
      end
  end.

Definition Java_com_uber_h3core_NativeMethods_cellsToLinkedMultiPolygon
  (h3a : nat) (results : nat) : M unit :=
  numH3 <- GetArrayLength h3a ;;
  h3Elements <- GetArrayElements h3a ;;
  if negb (is_null h3Elements) then
    cells <- load_all h3Elements numH3 ;;
    let r := cellsToLinkedMultiPolygon h3 (map jz cells) in
    err <- log_call "cellsToLinkedMultiPolygon" None (fst r) ;;
    if is_err err then
      ReleaseArrayElements h3a h3Elements MODE_COPY_BACK ;;;
      ThrowH3Exception err
    else
      let polygon := snd r in
      ConvertLinkedGeoPolygonToManaged (fst polygon :: snd polygon) results ;;;
      ReleaseArrayElements h3a h3Elements MODE_COPY_BACK
  else ThrowOutOfMemoryError.

(** *** Hierarchy navigator *)

Definition Java_com_uber_h3core_NativeMethods_cellToChildrenSize (h : H3Index) (childRes : Z)
  : M (option Z) :=
  scalar_call "cellToChildrenSize" (cellToChildrenSize h3 h childRes).

Definition Java_com_uber_h3core_NativeMethods_cellToChildren
  (h : H3Index) (childRes : Z) (results : nat) : M unit :=
  fill_call "cellToChildren" results (longs (cellToChildren h3 h childRes)).

Definition Java_com_uber_h3core_NativeMethods_cellToCenterChild (h : H3Index) (childRes : Z)
  : M (option H3Index) :=
  scalar_call "cellToCenterChild" (cellToCenterChild h3 h childRes).

Definition Java_com_uber_h3core_NativeMethods_compactCells (h3a results : nat) : M unit :=
  h3Elements <- GetArrayElements h3a ;;
  if negb (is_null h3Elements) then
    resultsElements <- GetArrayElements results ;;
    if negb (is_null resultsElements) then
      numHexes <- GetArrayLength h3a ;;
      cells <- load_all h3Elements numHexes ;;
      err <- native_fill "compactCells" None resultsElements
               (longs (compactCells h3 (map jz cells))) ;;
      ReleaseArrayElements h3a h3Elements MODE_COPY_BACK ;;;
      ReleaseArrayElements results resultsElements MODE_COPY_BACK ;;;
      throw_if err
    else
      ReleaseArrayElements h3a h3Elements MODE_COPY_BACK ;;;
      ThrowOutOfMemoryError
  else ThrowOutOfMemoryError.

Definition Java_com_uber_h3core_NativeMethods_uncompactCellsSize (h3a : nat) (res : Z)
  : M (option Z) :=
  numHexes <- GetArrayLength h3a ;;
  h3Elements <- GetArrayElements h3a ;;
  if negb (is_null h3Elements) then
    cells <- load_all h3Elements numHexes ;;
    let r := uncompactCellsSize h3 (map jz cells) res in
    err <- log_call "uncompactCellsSize" None (fst r) ;;
    let sz := written None (snd r) in
    ReleaseArrayElements h3a h3Elements MODE_COPY_BACK ;;;
    throw_if err ;;;
    ret sz
  else
    ThrowOutOfMemoryError ;;;
    ret (Some 0).

Definition Java_com_uber_h3core_NativeMethods_uncompactCells (h3a : nat) (res : Z) (results : nat)
  : M unit :=
  numHexes <- GetArrayLength h3a ;;
  h3Elements <- GetArrayElements h3a ;;
  if negb (is_null h3Elements) then
    maxHexes <- GetArrayLength results ;;
    resultsElements <- GetArrayElements results ;;
    if negb (is_null resultsElements) then
      cells <- load_all h3Elements numHexes ;;
      err <- native_fill "uncompactCells" (Some maxHexes) resultsElements
               (longs (uncompactCells h3 (map jz cells) maxHexes res)) ;;
      ReleaseArrayElements h3a h3Elements MODE_COPY_BACK ;;;
      ReleaseArrayElements results resultsElements MODE_COPY_BACK ;;;
      throw_if err
    else
      ReleaseArrayElements h3a h3Elements MODE_COPY_BACK ;;;
      ThrowOutOfMemoryError
  else ThrowOutOfMemoryError.

(** *** Metrics *)

Definition Java_com_uber_h3core_NativeMethods_cellAreaRads2 (h : H3Index) : M (option jdouble) :=
  scalar_call "cellAreaRads2" (cellAreaRads2 h3 h).
Definition Java_com_uber_h3core_NativeMethods_cellAreaKm2 (h : H3Index) : M (option jdouble) :=
  scalar_call "cellAreaKm2" (cellAreaKm2 h3 h).
Definition Java_com_uber_h3core_NativeMethods_cellAreaM2 (h : H3Index) : M (option jdouble) :=
  scalar_call "cellAreaM2" (cellAreaM2 h3 h).
Definition Java_com_uber_h3core_NativeMethods_edgeLengthRads (h : H3Index) : M (option jdouble) :=
  scalar_call "edgeLengthRads" (edgeLengthRads h3 h).
Definition Java_com_uber_h3core_NativeMethods_edgeLengthKm (h : H3Index) : M (option jdouble) :=
  scalar_call "edgeLengthKm" (edgeLengthKm h3 h).
Definition Java_com_uber_h3core_NativeMethods_edgeLengthM (h : H3Index) : M (option jdouble) :=
  scalar_call "edgeLengthM" (edgeLengthM h3 h).
Definition Java_com_uber_h3core_NativeMethods_getHexagonAreaAvgKm2 (res : Z) : M (option jdouble) :=
  scalar_call "getHexagonAreaAvgKm2" (getHexagonAreaAvgKm2 h3 res).
Definition Java_com_uber_h3core_NativeMethods_getHexagonAreaAvgM2 (res : Z) : M (option jdouble) :=
  scalar_call "getHexagonAreaAvgM2" (getHexagonAreaAvgM2 h3 res).
Definition Java_com_uber_h3core_NativeMethods_getHexagonEdgeLengthAvgKm (res : Z)
  : M (option jdouble) :=
  scalar_call "getHexagonEdgeLengthAvgKm" (getHexagonEdgeLengthAvgKm h3 res).
Definition Java_com_uber_h3core_NativeMethods_getHexagonEdgeLengthAvgM (res : Z)
  : M (option jdouble) :=
  scalar_call "getHexagonEdgeLengthAvgM" (getHexagonEdgeLengthAvgM h3 res).
Definition Java_com_uber_h3core_NativeMethods_getNumCells (res : Z) : M (option Z) :=
  scalar_call "getNumCells" (getNumCells h3 res).

(** *** Directed edges and vertexes *)

(** [int out; ...; return out;] as a [jboolean]: the low byte of [out]. *)
Definition Java_com_uber_h3core_NativeMethods_areNeighborCells (a b : H3Index) : M (option Z) :=
  out <- scalar_call "areNeighborCells" (areNeighborCells h3 a b) ;;
  ret (option_map (fun v => v mod 256) out).

Definition Java_com_uber_h3core_NativeMethods_cellsToDirectedEdge (a b : H3Index)
  : M (option H3Index) :=
  scalar_call "cellsToDirectedEdge" (cellsToDirectedEdge h3 a b).
Definition Java_com_uber_h3core_NativeMethods_getDirectedEdgeOrigin (h : H3Index)
  : M (option H3Index) :=
  scalar_call "getDirectedEdgeOrigin" (getDirectedEdgeOrigin h3 h).
Definition Java_com_uber_h3core_NativeMethods_getDirectedEdgeDestination (h : H3Index)
  : M (option H3Index) :=
  scalar_call "getDirectedEdgeDestination" (getDirectedEdgeDestination h3 h).

(** The common body of [directedEdgeToCells] ([min] = 2) and
    [originToDirectedEdges] ([min] = [MAX_HEX_EDGES] = 6). *)
Definition checked_fill_call (fn : string) (min : Z) (results : nat) (r : H3Error * list jval)
  : M unit :=
  sz <- GetArrayLength results ;;
  resultsElements <- GetArrayElements results ;;
  if negb (is_null resultsElements) then
    (if min <=? sz then
       err <- native_fill fn None resultsElements r ;;
       throw_if err
     else ThrowOutOfMemoryError) ;;;
    ReleaseArrayElements results resultsElements MODE_COPY_BACK
  else ThrowOutOfMemoryError.

Definition MAX_HEX_EDGES : Z := 6.

Definition Java_com_uber_h3core_NativeMethods_directedEdgeToCells (h : H3Index) (results : nat)
  : M unit :=
  checked_fill_call "directedEdgeToCells" 2 results (longs (directedEdgeToCells h3 h)).

Definition Java_com_uber_h3core_NativeMethods_originToDirectedEdges (h : H3Index) (results : nat)
  : M unit :=
  checked_fill_call "originToDirectedEdges" MAX_HEX_EDGES results
    (longs (originToDirectedEdges h3 h)).

Definition Java_com_uber_h3core_NativeMethods_directedEdgeToBoundary (h : H3Index) (verts : nat)
  : M Z :=
  boundary_call "directedEdgeToBoundary" (directedEdgeToBoundary h3 h) verts.

Definition Java_com_uber_h3core_NativeMethods_maxFaceCount (h : H3Index) : M (option Z) :=
  scalar_call "maxFaceCount" (maxFaceCount h3 h).

Definition Java_com_uber_h3core_NativeMethods_getIcosahedronFaces (h : H3Index) (faces : nat)
  : M unit :=
  fill_call "getIcosahedronFaces" faces (ints (getIcosahedronFaces h3 h)).

Definition Java_com_uber_h3core_NativeMethods_cellToVertex (h : H3Index) (vertexNum : Z)
  : M (option H3Index) :=
  scalar_call "cellToVertex" (cellToVertex h3 h vertexNum).

Definition Java_com_uber_h3core_NativeMethods_cellToVertexes (h : H3Index) (vertexes : nat)
  : M unit :=
  sz <- GetArrayLength vertexes ;;
  vertexesElements <- GetArrayElements vertexes ;;
  if negb (is_null vertexesElements) && (6 <=? sz) then
    err <- native_fill "cellToVertexes" None vertexesElements (longs (cellToVertexes h3 h)) ;;
    ReleaseArrayElements vertexes vertexesElements MODE_COPY_BACK ;;;
    throw_if err
  else ThrowOutOfMemoryError.

Definition Java_com_uber_h3core_NativeMethods_vertexToLatLng (h : H3Index) (latLng : nat) : M unit :=
  let r := vertexToLatLng h3 h in
  err <- log_call "vertexToLatLng" None (fst r) ;;
  let coord := snd r in
  if is_err err then ThrowH3Exception err
  else
    sz <- GetArrayLength latLng ;;
    coordsElements <- GetArrayElements latLng ;;
    if negb (is_null coordsElements) then
      (if 2 <=? sz then
         store coordsElements 0 (JDouble (lat coord)) ;;;
         store coordsElements 1 (JDouble (lng coord))
       else ret tt) ;;;
      ReleaseArrayElements latLng coordsElements MODE_COPY_BACK
    else ThrowOutOfMemoryError.

Definition Java_com_uber_h3core_NativeMethods_cellToChildPos (child : H3Index) (parentRes : Z)
  : M (option Z) :=
  let r := cellToChildPos h3 child parentRes in
  err <- log_call "cellToChildPos" None (fst r) ;;
  let pos := written None (snd r) in
  if is_err err then
    ThrowH3Exception err ;;;
    ret (Some 0)
  else ret pos.

Definition Java_com_uber_h3core_NativeMethods_childPosToCell
  (childPos : Z) (parent : H3Index) (childRes : Z) : M (option H3Index) :=
  let r := childPosToCell h3 childPos parent childRes in
  err <- log_call "childPosToCell" None (fst r) ;;
  let out := written None (snd r) in
  if is_err err then
    ThrowH3Exception err ;;;
    ret (Some 0)
  else ret out.

(** *** The fallible entry points of [NativeMethods]

    One constructor per JNI method whose native function can fail, with its
    Java arguments (arrays and objects by handle). *)
Inductive Op :=
| OconstructCell (res baseCell : Z) (digits : nat)
| OlatLngToCell (la lo : jdouble) (res : Z)
| OcellToLatLng (h : H3Index) (verts : nat)
| OcellToBoundary (h : H3Index) (verts : nat)
| OmaxGridDiskSize (k : Z)
| OgridDisk (h k : Z) (results : nat)
| OgridDiskDistances (h k : Z) (results distances : nat)
| OgridDiskUnsafe (h k : Z) (results : nat)
| OgridRing (h k : Z) (results : nat)
| OgridRingUnsafe (h k : Z) (results : nat)
| OgridDistance (a b : H3Index)
| OcellToLocalIj (origin h : H3Index) (coords : nat)
| OlocalIjToCell (origin : H3Index) (i j : Z)
| OgridPathCellsSize (start end_ : H3Index)
| OgridPathCells (start end_ : H3Index) (results : nat)
| OmaxPolygonToCellsSize (verts holeSizes holeVerts : nat) (res flags : Z)
| OmaxPolygonToCellsSizeExperimental (verts holeSizes holeVerts : nat) (res flags : Z)
| OgetRes0Cells (results : nat)
| OgetPentagons (res : Z) (results : nat)
| OpolygonToCells (verts holeSizes holeVerts : nat) (res flags : Z) (results : nat)
| OpolygonToCellsExperimental (verts holeSizes holeVerts : nat) (res flags : Z) (results : nat)
| OcellsToLinkedMultiPolygon (h3a results : nat)
| OcellToChildrenSize (h : H3Index) (childRes : Z)
| OcellToChildren (h : H3Index) (childRes : Z) (results : nat)
| OcellToCenterChild (h : H3Index) (childRes : Z)
| OcompactCells (h3a results : nat)
| OuncompactCellsSize (h3a : nat) (res : Z)
| OuncompactCells (h3a : nat) (res : Z) (results : nat)
| OcellAreaRads2 (h : H3Index)
| OcellAreaKm2 (h : H3Index)
| OcellAreaM2 (h : H3Index)
| OedgeLengthRads (h : H3Index)
| OedgeLengthKm (h : H3Index)
| OedgeLengthM (h : H3Index)
| OgetHexagonAreaAvgKm2 (res : Z)
| OgetHexagonAreaAvgM2 (res : Z)
| OgetHexagonEdgeLengthAvgKm (res : Z)
| OgetHexagonEdgeLengthAvgM (res : Z)
| OgetNumCells (res : Z)
| OareNeighborCells (a b : H3Index)
| OcellsToDirectedEdge (a b : H3Index)
| OgetDirectedEdgeOrigin (h : H3Index)
| OgetDirectedEdgeDestination (h : H3Index)
| OdirectedEdgeToCells (h : H3Index) (results : nat)
| OoriginToDirectedEdges (h : H3Index) (results : nat)
| OdirectedEdgeToBoundary (h : H3Index) (verts : nat)
| OmaxFaceCount (h : H3Index)
| OgetIcosahedronFaces (h : H3Index) (faces : nat)
| OcellToVertex (h : H3Index) (vertexNum : Z)
| OcellToVertexes (h : H3Index) (vertexes : nat)
| OvertexToLatLng (h : H3Index) (latLng : nat)
| OcellToChildPos (child : H3Index) (parentRes : Z)
| OchildPosToCell (childPos : Z) (parent : H3Index) (childRes : Z).

Definition discard {A} (m : M A) : M unit := _ <- m ;; ret tt.

Definition run_op (op : Op) : M unit :=
  match op with
  | OconstructCell res bc d => discard (Java_com_uber_h3core_NativeMethods_constructCell res bc d)
  | OlatLngToCell la lo res => discard (Java_com_uber_h3core_NativeMethods_latLngToCell la lo res)
  | OcellToLatLng h v => Java_com_uber_h3core_NativeMethods_cellToLatLng h v
  | OcellToBoundary h v => discard (Java_com_uber_h3core_NativeMethods_cellToBoundary h v)
  | OmaxGridDiskSize k => discard (Java_com_uber_h3core_NativeMethods_maxGridDiskSize k)
  | OgridDisk h k r => Java_com_uber_h3core_NativeMethods_gridDisk h k r
  | OgridDiskDistances h k r d => Java_com_uber_h3core_NativeMethods_gridDiskDistances h k r d
  | OgridDiskUnsafe h k r => Java_com_uber_h3core_NativeMethods_gridDiskUnsafe h k r
  | OgridRing h k r => Java_com_uber_h3core_NativeMethods_gridRing h k r
  | OgridRingUnsafe h k r => Java_com_uber_h3core_NativeMethods_gridRingUnsafe h k r
  | OgridDistance a b => discard (Java_com_uber_h3core_NativeMethods_gridDistance a b)
  | OcellToLocalIj o h c => Java_com_uber_h3core_NativeMethods_cellToLocalIj o h c
  | OlocalIjToCell o i j => discard (Java_com_uber_h3core_NativeMethods_localIjToCell o i j)
  | OgridPathCellsSize a b => discard (Java_com_uber_h3core_NativeMethods_gridPathCellsSize a b)
  | OgridPathCells a b r => Java_com_uber_h3core_NativeMethods_gridPathCells a b r
  | OmaxPolygonToCellsSize v hs hv res fl =>
      discard (Java_com_uber_h3core_NativeMethods_maxPolygonToCellsSize v hs hv res fl)
  | OmaxPolygonToCellsSizeExperimental v hs hv res fl =>
      discard (Java_com_uber_h3core_NativeMethods_maxPolygonToCellsSizeExperimental v hs hv res fl)
  | OgetRes0Cells r => Java_com_uber_h3core_NativeMethods_getRes0Cells r
  | OgetPentagons res r => Java_com_uber_h3core_NativeMethods_getPentagons res r
  | OpolygonToCells v hs hv res fl r =>
      Java_com_uber_h3core_NativeMethods_polygonToCells v hs hv res fl r
  | OpolygonToCellsExperimental v hs hv res fl r =>
      Java_com_uber_h3core_NativeMethods_polygonToCellsExperimental v hs hv res fl r
  | OcellsToLinkedMultiPolygon a r => Java_com_uber_h3core_NativeMethods_cellsToLinkedMultiPolygon a r
  | OcellToChildrenSize h r => discard (Java_com_uber_h3core_NativeMethods_cellToChildrenSize h r)
  | OcellToChildren h cr r => Java_com_uber_h3core_NativeMethods_cellToChildren h cr r
  | OcellToCenterChild h r => discard (Java_com_uber_h3core_NativeMethods_cellToCenterChild h r)
  | OcompactCells a r => Java_com_uber_h3core_NativeMethods_compactCells a r
  | OuncompactCellsSize a res => discard (Java_com_uber_h3core_NativeMethods_uncompactCellsSize a res)
  | OuncompactCells a res r => Java_com_uber_h3core_NativeMethods_uncompactCells a res r
  | OcellAreaRads2 h => discard (Java_com_uber_h3core_NativeMethods_cellAreaRads2 h)
  | OcellAreaKm2 h => discard (Java_com_uber_h3core_NativeMethods_cellAreaKm2 h)
  | OcellAreaM2 h => discard (Java_com_uber_h3core_NativeMethods_cellAreaM2 h)
  | OedgeLengthRads h => discard (Java_com_uber_h3core_NativeMethods_edgeLengthRads h)
  | OedgeLengthKm h => discard (Java_com_uber_h3core_NativeMethods_edgeLengthKm h)
  | OedgeLengthM h => discard (Java_com_uber_h3core_NativeMethods_edgeLengthM h)
  | OgetHexagonAreaAvgKm2 r => discard (Java_com_uber_h3core_NativeMethods_getHexagonAreaAvgKm2 r)
  | OgetHexagonAreaAvgM2 r => discard (Java_com_uber_h3core_NativeMethods_getHexagonAreaAvgM2 r)
  | OgetHexagonEdgeLengthAvgKm r =>
      discard (Java_com_uber_h3core_NativeMethods_getHexagonEdgeLengthAvgKm r)
  | OgetHexagonEdgeLengthAvgM r =>
      discard (Java_com_uber_h3core_NativeMethods_getHexagonEdgeLengthAvgM r)
  | OgetNumCells r => discard (Java_com_uber_h3core_NativeMethods_getNumCells r)
  | OareNeighborCells a b => discard (Java_com_uber_h3core_NativeMethods_areNeighborCells a b)
  | OcellsToDirectedEdge a b => discard (Java_com_uber_h3core_NativeMethods_cellsToDirectedEdge a b)
  | OgetDirectedEdgeOrigin h => discard (Java_com_uber_h3core_NativeMethods_getDirectedEdgeOrigin h)
  | OgetDirectedEdgeDestination h =>
      discard (Java_com_uber_h3core_NativeMethods_getDirectedEdgeDestination h)
  | OdirectedEdgeToCells h r => Java_com_uber_h3core_NativeMethods_directedEdgeToCells h r
  | OoriginToDirectedEdges h r => Java_com_uber_h3core_NativeMethods_originToDirectedEdges h r
  | OdirectedEdgeToBoundary h v =>
      discard (Java_com_uber_h3core_NativeMethods_directedEdgeToBoundary h v)
  | OmaxFaceCount h => discard (Java_com_uber_h3core_NativeMethods_maxFaceCount h)
  | OgetIcosahedronFaces h f => Java_com_uber_h3core_NativeMethods_getIcosahedronFaces h f
  | OcellToVertex h n => discard (Java_com_uber_h3core_NativeMethods_cellToVertex h n)
  | OcellToVertexes h v => Java_com_uber_h3core_NativeMethods_cellToVertexes h v
  | OvertexToLatLng h l => Java_com_uber_h3core_NativeMethods_vertexToLatLng h l
  | OcellToChildPos c r => discard (Java_com_uber_h3core_NativeMethods_cellToChildPos c r)
  | OchildPosToCell p c r => discard (Java_com_uber_h3core_NativeMethods_childPosToCell p c r)
  end.

End Binding.

(** ** A concrete H3 library and JNI states, for evaluating the binding

    [stub_lib err cells b ll]: every fallible function returns [err]; scalar
    outputs are [1] on success and left unwritten on error, array outputs are
    [cells], boundaries [b] and coordinates [ll].  The capacity-bounded
    functions report [E_MEMORY_BOUNDS] when [cells] does not fit. *)
Definition stub_lib (err : H3Error) (cells : list Z) (b : CellBoundary) (ll : LatLng) : H3Lib :=
  let out {X} (v : X) : option X := if is_err err then None else Some v in
  let bounded (cap : Z) := if Z.of_nat (length cells) <=? cap then (err, cells)
                           else (E_MEMORY_BOUNDS, []) in
  {| constructCell := fun _ _ _ => (err, out 1);
     latLngToCell := fun _ _ => (err, out 1);
     cellToLatLng := fun _ => (err, ll);
     cellToBoundary := fun _ => (err, b);
     maxGridDiskSize := fun _ => (err, out 1);
     gridDisk := fun _ _ => (err, cells);
     gridDiskDistances := fun _ _ => (err, (cells, map (fun _ => 0) cells));
     gridDiskUnsafe := fun _ _ => (err, cells);
     gridRing := fun _ _ => (err, cells);
     gridRingUnsafe := fun _ _ => (err, cells);
     gridDistance := fun _ _ => (err, out 1);
     cellToLocalIj := fun _ _ _ => (err, mkCoordIJ 1 2);
     localIjToCell := fun _ _ _ => (err, out 1);
     gridPathCellsSize := fun _ _ => (err, out 1);
     gridPathCells := fun _ _ => (err, cells);
     maxPolygonToCellsSize := fun _ _ _ => (err, out 1);
     maxPolygonToCellsSizeExperimental := fun _ _ _ => (err, out 1);
     res0CellCount := 122;
     pentagonCount := 12;
     getRes0Cells := (err, cells);
     getPentagons := fun _ => (err, cells);
     polygonToCells := fun _ _ _ => (err, cells);
     polygonToCellsExperimental := fun _ _ _ cap => bounded cap;
     cellsToLinkedMultiPolygon := fun _ => (err, ([], []));
     cellToChildrenSize := fun _ _ => (err, out 1);
     cellToChildren := fun _ _ => (err, cells);
     cellToCenterChild := fun _ _ => (err, out 1);
     compactCells := fun _ => (err, cells);
     uncompactCellsSize := fun _ _ => (err, out 1);
     uncompactCells := fun _ cap _ => bounded cap;
     cellAreaRads2 := fun _ => (err, out 1);
     cellAreaKm2 := fun _ => (err, out 1);
     cellAreaM2 := fun _ => (err, out 1);
     edgeLengthRads := fun _ => (err, out 1);
     edgeLengthKm := fun _ => (err, out 1);
     edgeLengthM := fun _ => (err, out 1);
     getHexagonAreaAvgKm2 := fun _ => (err, out 1);
     getHexagonAreaAvgM2 := fun _ => (err, out 1);
     getHexagonEdgeLengthAvgKm := fun _ => (err, out 1);
     getHexagonEdgeLengthAvgM := fun _ => (err, out 1);
     getNumCells := fun _ => (err, out 1);
     areNeighborCells := fun _ _ => (err, out 1);
     cellsToDirectedEdge := fun _ _ => (err, out 1);
     getDirectedEdgeOrigin := fun _ => (err, out 1);
     getDirectedEdgeDestination := fun _ => (err, out 1);
     directedEdgeToCells := fun _ => (err, cells);
     originToDirectedEdges := fun _ => (err, cells);
     directedEdgeToBoundary := fun _ => (err, b);
     maxFaceCount := fun _ => (err, out 1);
     getIcosahedronFaces := fun _ => (err, cells);
     cellToVertex := fun _ _ => (err, out 1);
     cellToVertexes := fun _ => (err, cells);
     vertexToLatLng := fun _ => (err, ll);
     cellToChildPos := fun _ _ => (err, out 1);
     childPosToCell := fun _ _ _ => (err, out 1) |}.

(** A hexagon boundary: six vertices, the four unused slots zero. *)
Definition hexagon : CellBoundary :=
  mkCellBoundary 6 (map (fun k => mkLatLng k (k + 100)) [1; 2; 3; 4; 5; 6; 0; 0; 0; 0]).

(** The state a JNI method is entered in: the given Java arrays, no objects,
    no pinned buffers, nothing pending. *)
(** [l] with a [cellsToLinkedMultiPolygon] that succeeds with the polygons [ps]. *)
Definition with_polygons (l : H3Lib) (ps : LinkedGeoPolygon * list LinkedGeoPolygon) : H3Lib :=
  {| constructCell := constructCell l;
     latLngToCell := latLngToCell l;
     cellToLatLng := cellToLatLng l;
     cellToBoundary := cellToBoundary l;
     maxGridDiskSize := maxGridDiskSize l;
     gridDisk := gridDisk l;
     gridDiskDistances := gridDiskDistances l;
     gridDiskUnsafe := gridDiskUnsafe l;
     gridRing := gridRing l;
     gridRingUnsafe := gridRingUnsafe l;
     gridDistance := gridDistance l;
     cellToLocalIj := cellToLocalIj l;
     localIjToCell := localIjToCell l;
     gridPathCellsSize := gridPathCellsSize l;
     gridPathCells := gridPathCells l;
     maxPolygonToCellsSize := maxPolygonToCellsSize l;
     maxPolygonToCellsSizeExperimental := maxPolygonToCellsSizeExperimental l;
     res0CellCount := res0CellCount l;
     pentagonCount := pentagonCount l;
     getRes0Cells := getRes0Cells l;
     getPentagons := getPentagons l;
     polygonToCells := polygonToCells l;
     polygonToCellsExperimental := polygonToCellsExperimental l;
     cellsToLinkedMultiPolygon := fun _ => (E_SUCCESS, ps);
     cellToChildrenSize := cellToChildrenSize l;
     cellToChildren := cellToChildren l;
     cellToCenterChild := cellToCenterChild l;
     compactCells := compactCells l;
     uncompactCellsSize := uncompactCellsSize l;
     uncompactCells := uncompactCells l;
     cellAreaRads2 := cellAreaRads2 l;
     cellAreaKm2 := cellAreaKm2 l;
     cellAreaM2 := cellAreaM2 l;
     edgeLengthRads := edgeLengthRads l;
     edgeLengthKm := edgeLengthKm l;
     edgeLengthM := edgeLengthM l;
     getHexagonAreaAvgKm2 := getHexagonAreaAvgKm2 l;
     getHexagonAreaAvgM2 := getHexagonAreaAvgM2 l;
     getHexagonEdgeLengthAvgKm := getHexagonEdgeLengthAvgKm l;
     getHexagonEdgeLengthAvgM := getHexagonEdgeLengthAvgM l;
     getNumCells := getNumCells l;
     areNeighborCells := areNeighborCells l;
     cellsToDirectedEdge := cellsToDirectedEdge l;
     getDirectedEdgeOrigin := getDirectedEdgeOrigin l;
     getDirectedEdgeDestination := getDirectedEdgeDestination l;
     directedEdgeToCells := directedEdgeToCells l;
     originToDirectedEdges := originToDirectedEdges l;
     directedEdgeToBoundary := directedEdgeToBoundary l;
     maxFaceCount := maxFaceCount l;
     getIcosahedronFaces := getIcosahedronFaces l;
     cellToVertex := cellToVertex l;
     cellToVertexes := cellToVertexes l;
     vertexToLatLng := vertexToLatLng l;
     cellToChildPos := cellToChildPos l;
     childPosToCell := childPosToCell l |}.

Definition entry_state (arrs : list (list jval)) : JState := mkJState arrs [] [] None 0 [].

Definition doubles (n : nat) : list jval := repeat (JDouble 0) n.
Definition longs0 (n : nat) : list jval := repeat (JLong 0) n.

Definition no_failures : nat -> bool := fun _ => false.
Definition all_fail : nat -> bool := fun _ => true.


(** Buffers and arrays untouched by the object-building code. *)
Definition mem_same (s s' : JState) : Prop := buffers s' = buffers s /\ arrays s' = arrays s.

(** The outcome of a wrapper that gives up before calling the library. *)
Definition oom_without_call (s s' : JState) : Prop :=
  calls s' = calls s /\ arrays s' = arrays s /\ buffers s' = buffers s /\ pending s' = Some ExOOM.

(** The [LatLng] object the conversion creates for a coordinate. *)
Definition ll_obj (c : LatLng) : JObj := OLatLng (lat c) (lng c).

(** The object handles and new objects that converting the loops [ls] of one
    polygon appends to a heap whose next handle is [start]: for each loop, its
    [ArrayList] followed by one [LatLng] per coordinate. *)
Fixpoint loops_layout (start : nat) (ls : list (list LatLng)) : list nat * list JObj :=
  match ls with
  | [] => ([], [])
  | l :: ls' =>
      let r := loops_layout (start + S (length l)) ls' in
      (start :: fst r, OArrayList (seq (S start) (length l)) :: map ll_obj l ++ snd r)
  end.

(** The same for a list of polygons; an empty polygon leaves an unused
    [ArrayList] behind and adds no handle. *)
Fixpoint polygons_layout (start : nat) (ps : list LinkedGeoPolygon) : list nat * list JObj :=
  match ps with
  | [] => ([], [])
  | p :: ps' =>
      match p with
      | [] => let r := polygons_layout (S start) ps' in (fst r, OArrayList [] :: snd r)
      | _ :: _ =>
          let lr := loops_layout (S start) p in
          let r := polygons_layout (S start + length (snd lr)) ps' in
          (start :: fst r, OArrayList (fst lr) :: snd lr ++ snd r)
      end
  end.

(** Reading managed objects back as a Java caller sees them: a list of
    [LatLng] handles, an [ArrayList] of loops, an [ArrayList] of polygons. *)
Fixpoint read_coords (objs : list JObj) (ids : list nat) : option (list LatLng) :=
  match ids with
  | [] => Some []
  | i :: ids' =>
      match nth_error objs i, read_coords objs ids' with
      | Some (OLatLng la lo), Some cs => Some (mkLatLng la lo :: cs)
      | _, _ => None
      end
  end.

Fixpoint read_loops (objs : list JObj) (ids : list nat) : option LinkedGeoPolygon :=
  match ids with
  | [] => Some []
  | i :: ids' =>
      match nth_error objs i, read_loops objs ids' with
      | Some (OArrayList xs), Some ls =>
          match read_coords objs xs with
          | Some cs => Some (cs :: ls)
          | None => None
          end
      | _, _ => None
      end
  end.

Fixpoint read_polygons (objs : list JObj) (ids : list nat) : option (list LinkedGeoPolygon) :=
  match ids with
  | [] => Some []
  | i :: ids' =>
      match nth_error objs i, read_polygons objs ids' with
      | Some (OArrayList xs), Some ps =>
          match read_loops objs xs with
          | Some p => Some (p :: ps)
          | None => None
          end
      | _, _ => None
      end
  end.

(** Whether a linked polygon has a first loop. *)
Definition nonempty_polygon (p : LinkedGeoPolygon) : bool :=
  match p with [] => false | _ :: _ => true end.

(** * Proofs *)

(** ** Symbolic execution of the monadic code *)

Lemma nth_error_app_last {A} (l : list A) (x : A) : nth_error (l ++ [x]) (length l) = Some x.
Proof. rewrite nth_error_app2 by lia. now rewrite Nat.sub_diag. Qed.

Lemma nth_error_app_plus {A} (l r : list A) k : nth_error (l ++ r) (length l + k) = nth_error r k.
Proof. rewrite nth_error_app2 by lia; f_equal; lia. Qed.

Lemma replace_nth_length {A} (l : list A) n x : length (replace_nth l n x) = length l.
Proof. revert n; induction l; intros [|n]; simpl; auto. Qed.

Lemma nth_error_replace_nth_eq {A} (l : list A) n x :
  (n < length l)%nat -> nth_error (replace_nth l n x) n = Some x.
Proof. revert n; induction l; intros [|n] Hn; simpl in *; auto; try lia; apply IHl; lia. Qed.

Lemma nth_error_replace_nth_neq {A} (l : list A) n m x :
  n <> m -> nth_error (replace_nth l n x) m = nth_error l m.
Proof.
  revert n m; induction l; intros [|n] [|m] Hn; simpl; auto; try congruence;
  apply IHl; congruence.
Qed.

Lemma replace_nth_same {A} (l : list A) n x : nth_error l n = Some x -> replace_nth l n x = l.
Proof. revert n; induction l; intros [|n] Hn; simpl in *; try congruence; f_equal; auto. Qed.

(** The unfoldable part of the model: everything except the loops. *)
Ltac unfold_binding H :=
  cbv beta iota zeta delta [
    run_op discard
    Java_com_uber_h3core_NativeMethods_constructCell Java_com_uber_h3core_NativeMethods_latLngToCell
    Java_com_uber_h3core_NativeMethods_cellToLatLng Java_com_uber_h3core_NativeMethods_cellToBoundary
    Java_com_uber_h3core_NativeMethods_maxGridDiskSize Java_com_uber_h3core_NativeMethods_gridDisk
    Java_com_uber_h3core_NativeMethods_gridDiskDistances Java_com_uber_h3core_NativeMethods_gridDiskUnsafe
    Java_com_uber_h3core_NativeMethods_gridRing Java_com_uber_h3core_NativeMethods_gridRingUnsafe
    Java_com_uber_h3core_NativeMethods_gridDistance Java_com_uber_h3core_NativeMethods_cellToLocalIj
    Java_com_uber_h3core_NativeMethods_localIjToCell Java_com_uber_h3core_NativeMethods_gridPathCellsSize
    Java_com_uber_h3core_NativeMethods_gridPathCells Java_com_uber_h3core_NativeMethods_maxPolygonToCellsSize
    Java_com_uber_h3core_NativeMethods_maxPolygonToCellsSizeExperimental
    Java_com_uber_h3core_NativeMethods_getRes0Cells Java_com_uber_h3core_NativeMethods_getPentagons
    Java_com_uber_h3core_NativeMethods_polygonToCells
    Java_com_uber_h3core_NativeMethods_polygonToCellsExperimental
    Java_com_uber_h3core_NativeMethods_cellsToLinkedMultiPolygon
    Java_com_uber_h3core_NativeMethods_cellToChildrenSize Java_com_uber_h3core_NativeMethods_cellToChildren
    Java_com_uber_h3core_NativeMethods_cellToCenterChild Java_com_uber_h3core_NativeMethods_compactCells
    Java_com_uber_h3core_NativeMethods_uncompactCellsSize Java_com_uber_h3core_NativeMethods_uncompactCells
    Java_com_uber_h3core_NativeMethods_cellAreaRads2 Java_com_uber_h3core_NativeMethods_cellAreaKm2
    Java_com_uber_h3core_NativeMethods_cellAreaM2 Java_com_uber_h3core_NativeMethods_edgeLengthRads
    Java_com_uber_h3core_NativeMethods_edgeLengthKm Java_com_uber_h3core_NativeMethods_edgeLengthM
    Java_com_uber_h3core_NativeMethods_getHexagonAreaAvgKm2 Java_com_uber_h3core_NativeMethods_getHexagonAreaAvgM2
    Java_com_uber_h3core_NativeMethods_getHexagonEdgeLengthAvgKm
    Java_com_uber_h3core_NativeMethods_getHexagonEdgeLengthAvgM Java_com_uber_h3core_NativeMethods_getNumCells
    Java_com_uber_h3core_NativeMethods_areNeighborCells Java_com_uber_h3core_NativeMethods_cellsToDirectedEdge
    Java_com_uber_h3core_NativeMethods_getDirectedEdgeOrigin
    Java_com_uber_h3core_NativeMethods_getDirectedEdgeDestination
    Java_com_uber_h3core_NativeMethods_directedEdgeToCells
    Java_com_uber_h3core_NativeMethods_originToDirectedEdges
    Java_com_uber_h3core_NativeMethods_directedEdgeToBoundary Java_com_uber_h3core_NativeMethods_maxFaceCount
    Java_com_uber_h3core_NativeMethods_getIcosahedronFaces Java_com_uber_h3core_NativeMethods_cellToVertex
    Java_com_uber_h3core_NativeMethods_cellToVertexes Java_com_uber_h3core_NativeMethods_vertexToLatLng
    Java_com_uber_h3core_NativeMethods_cellToChildPos Java_com_uber_h3core_NativeMethods_childPosToCell
    boundary_call checked_fill_call scalar_call fill_call native_fill throw_if longs ints
    CreateGeoPolygon DestroyGeoPolygon read_polygon ThrowH3Exception ThrowOutOfMemoryError
    bind ret crash alloc calloc GetArrayLength GetArrayElements ReleaseArrayElements store store_all
    load_all read_buffer NewObject Throw ExceptionClear ExceptionCheck DeleteLocalRef ArrayList_add
    log_call set_arrays set_objects set_buffers set_pending set_allocs set_calls
    written is_null negb andb option_map fst snd
    arrays objects buffers pending allocs calls buf_array buf_data gl_verts geoloop numHoles holes
  ] in H.

(** Case split on an innermost [match] of [H]. *)
Ltac split_innermost H :=
  match type of H with
  | context [match ?x with _ => _ end] =>
      match x with
      | context [match _ with _ => _ end] => fail 1
      | _ => destruct x eqn:?
      end
  end.

(** [quiet s s']: no native call and no change of the pending exception. *)
Definition quiet (s s' : JState) : Prop := calls s' = calls s /\ pending s' = pending s.

Lemma store_quiet p i v s s' :
  store p i v s = Done tt s' -> quiet s s' /\ arrays s' = arrays s /\ allocs s' = allocs s.
Proof.
  unfold store; intros H.
  repeat (split_innermost H; try discriminate); injection H as <-; cbn; unfold quiet; auto.
Qed.

Lemma boundary_loop_quiet p sz b i fuel s s' :
  boundary_loop p sz b i fuel s = Done tt s' ->
  quiet s s' /\ arrays s' = arrays s /\ allocs s' = allocs s.
Proof.
  unfold quiet; revert i s; induction fuel as [|fuel IH]; intros i s H; simpl in H.
  - unfold ret in H; injection H as <-; auto.
  - destruct ((i <? sz) && (i <? cb_numVerts b * 2)).
    2: { unfold ret in H; injection H as <-; auto. }
    destruct (nth_error (cb_verts b) (Z.to_nat (i / 2))); [|discriminate].
    unfold bind in H.
    destruct (store p i _ s) as [|[] s1] eqn:E1; [discriminate|].
    destruct (store p (i + 1) _ s1) as [|[] s2] eqn:E2; [discriminate|].
    apply store_quiet in E1; apply store_quiet in E2; apply IH in H.
    unfold quiet in *; intuition congruence.
Qed.

Section Frames.

Variable h3 : H3Lib.
Variable alloc_fails : nat -> bool.

(** An allocation failed somewhere: the only way the JVM's own
    [OutOfMemoryError] becomes pending. *)
Definition some_alloc_failed : Prop := exists n, alloc_fails n = true.

(** The last allocation of a run from [s] to [s'] failed.  In a run that ends
    by throwing, that allocation is the one of the exception object. *)
Definition last_alloc_failed (s s' : JState) : Prop :=
  (allocs s < allocs s')%nat /\ alloc_fails (pred (allocs s')) = true.

Lemma new_object_effect o s r s' :
  NewObject alloc_fails o s = Done r s' ->
  calls s' = calls s /\
  (pending s' = pending s \/ (pending s' = Some ExOOM /\ some_alloc_failed)).
Proof.
  unfold NewObject, alloc, bind, ret; intros H.
  destruct (alloc_fails (allocs s)) eqn:E; cbn in H; injection H as <- <-; cbn; auto.
  split; auto; right; split; [reflexivity | exists (allocs s); exact E].
Qed.

Lemma arraylist_add_effect l v s s' :
  ArrayList_add alloc_fails l v s = Done tt s' ->
  calls s' = calls s /\
  (pending s' = pending s \/ (pending s' = Some ExOOM /\ some_alloc_failed)).
Proof.
  unfold ArrayList_add, alloc, bind, ret; intros H.
  destruct (alloc_fails (allocs s)) eqn:E; cbn in H.
  - injection H as <-; cbn; split; auto; right; split; [reflexivity | exists (allocs s); exact E].
  - destruct (nth_error (objects s) l) as [[]|]; try discriminate; injection H as <-; cbn; auto.
Qed.

(** The effects allowed to the conversion of a [LinkedGeoPolygon]. *)
Definition convert_effect (s s' : JState) : Prop :=
  calls s' = calls s /\
  (pending s' = pending s \/ (pending s' = Some ExOOM /\ some_alloc_failed)).

Lemma convert_effect_trans s1 s2 s3 :
  convert_effect s1 s2 -> convert_effect s2 s3 -> convert_effect s1 s3.
Proof. unfold convert_effect; intuition congruence. Qed.

Lemma convert_effect_refl s : convert_effect s s.
Proof. unfold convert_effect; auto. Qed.

Ltac convert_step :=
  match goal with
  | H : NewObject _ _ ?s = Done _ ?s' |- _ =>
      apply new_object_effect in H; apply (convert_effect_trans s s'); [exact H|]; clear H
  | H : ArrayList_add _ _ _ ?s = Done _ ?s' |- _ =>
      apply arraylist_add_effect in H; apply (convert_effect_trans s s'); [exact H|]; clear H
  end.

Lemma convert_coords_effect rl cs s r s' :
  convert_coords alloc_fails rl cs s = Done r s' -> convert_effect s s'.
Proof.
  revert s; induction cs as [|c cs IH]; intros s H; simpl in H; unfold bind, ret in H.
  - injection H as _ <-; apply convert_effect_refl.
  - destruct (NewObject alloc_fails _ s) as [|v s1] eqn:E1; [discriminate|].
    destruct v as [v|]; [|injection H as _ <-; convert_step; apply convert_effect_refl].
    destruct (ArrayList_add alloc_fails rl v s1) as [|[] s2] eqn:E2; [discriminate|].
    unfold ExceptionCheck in H.
    convert_step; convert_step.
    destruct (pending s2); [injection H as _ <-; apply convert_effect_refl|].
    apply (IH _ H).
Qed.

Lemma convert_loops_effect rl ls s r s' :
  convert_loops alloc_fails rl ls s = Done r s' -> convert_effect s s'.
Proof.
  revert s; induction ls as [|l ls IH]; intros s H; simpl in H; unfold bind, ret in H.
  - injection H as _ <-; apply convert_effect_refl.
  - destruct (NewObject alloc_fails _ s) as [|v s1] eqn:E1; [discriminate|].
    destruct v as [v|]; [|injection H as _ <-; convert_step; apply convert_effect_refl].
    destruct (convert_coords alloc_fails v l s1) as [|c s2] eqn:E2; [discriminate|].
    apply convert_coords_effect in E2.
    convert_step; apply (convert_effect_trans _ s2); [exact E2|].
    destruct c; [|injection H as _ <-; apply convert_effect_refl].
    destruct (ArrayList_add alloc_fails rl v s2) as [|[] s3] eqn:E3; [discriminate|].
    unfold ExceptionCheck in H; convert_step.
    destruct (pending s3); [injection H as _ <-; apply convert_effect_refl|].
    apply (IH _ H).
Qed.

Lemma convert_polygons_effect ps results s s' :
  ConvertLinkedGeoPolygonToManaged alloc_fails ps results s = Done tt s' -> convert_effect s s'.
Proof.
  revert s; induction ps as [|p ps IH]; intros s H; simpl in H; unfold bind, ret in H.
  - injection H as <-; apply convert_effect_refl.
  - destruct (NewObject alloc_fails _ s) as [|v s1] eqn:E1; [discriminate|].
    destruct v as [v|]; [|injection H as <-; convert_step; apply convert_effect_refl].
    convert_step.
    destruct p as [|l p]; [apply (IH _ H)|].
    destruct (convert_loops alloc_fails v (l :: p) s1) as [|c s2] eqn:E2; [discriminate|].
    apply convert_loops_effect in E2; apply (convert_effect_trans _ s2); [exact E2|].
    destruct c; [|injection H as <-; apply convert_effect_refl].
    destruct (ArrayList_add alloc_fails results v s2) as [|[] s3] eqn:E3; [discriminate|].
    unfold ExceptionCheck in H; convert_step.
    destruct (pending s3); [injection H as <-; apply convert_effect_refl|].
    apply (IH _ H).
Qed.

End Frames.

(** Symbolic execution of a hypothesis [H : run = Done _ _]. *)
Ltac run_in H :=
  unfold_binding H;
  repeat (cbv beta iota zeta in H;
          first [ discriminate H
                | rewrite nth_error_app_last in H
                | split_innermost H ]).

Ltac use_frames :=
  repeat match goal with
  | E : boundary_loop _ _ _ _ _ _ = Done ?u _ |- _ =>
      destruct u; apply boundary_loop_quiet in E; destruct E as [[? ?] _]
  | E : ConvertLinkedGeoPolygonToManaged _ _ _ _ = Done ?u _ |- _ =>
      destruct u; apply convert_polygons_effect in E; destruct E as [? ?]
  end.

(** ** The vertex-copy loop *)

Lemma store_effect bi i x s s1 buf :
  nth_error (buffers s) bi = Some (Some buf) ->
  store (PBuf bi 0) i x s = Done tt s1 ->
  (0 <= i < Z.of_nat (length (buf_data buf)))%Z /\
  buffers s1 = replace_nth (buffers s) bi
                 (Some (mkBuffer (buf_array buf) (replace_nth (buf_data buf) (Z.to_nat i) x))).
Proof.
  intros Hb H; unfold store in H; rewrite Hb in H.
  destruct ((0 <=? 0 + i) && (0 + i <? Z.of_nat (length (buf_data buf)))) eqn:Hc;
    [|discriminate].
  apply andb_prop in Hc as [H1 H2]; apply Z.leb_le in H1; apply Z.ltb_lt in H2.
  injection H as <-; split; [lia|reflexivity].
Qed.

Lemma nth_error_some_lt {A} (l : list A) n x : nth_error l n = Some x -> (n < length l)%nat.
Proof. intros H; apply nth_error_Some; congruence. Qed.

Lemma half_even (j : nat) : Z.to_nat (Z.of_nat (2 * j) / 2) = j.
Proof. rewrite Nat2Z.inj_mul, Z.mul_comm, Z.div_mul by lia; apply Nat2Z.id. Qed.

(** [boundary_loop] started at [i = 2 j] keeps the buffer's entries below
    [2 j] and stores the vertices [j .. j + fuel - 1] that fit the loop bounds
    as (lat, lng) pairs. *)
Lemma boundary_loop_writes bi sz bd fuel : forall j s s' buf,
  boundary_loop (PBuf bi 0) sz bd (Z.of_nat (2 * j)) fuel s = Done tt s' ->
  nth_error (buffers s) bi = Some (Some buf) ->
  exists buf', nth_error (buffers s') bi = Some (Some buf') /\
    buf_array buf' = buf_array buf /\
    length (buf_data buf') = length (buf_data buf) /\
    (forall m, (m < 2 * j)%nat -> nth_error (buf_data buf') m = nth_error (buf_data buf) m) /\
    (forall k v, (j <= k < j + fuel)%nat -> Z.of_nat k < cb_numVerts bd ->
       Z.of_nat (2 * k + 1) < sz -> nth_error (cb_verts bd) k = Some v ->
       nth_error (buf_data buf') (2 * k) = Some (JDouble (lat v)) /\
       nth_error (buf_data buf') (2 * k + 1) = Some (JDouble (lng v))).
Proof.
  induction fuel as [|fuel IH]; intros j s s' buf H Hb; cbn [boundary_loop] in H; unfold ret in H.
  - injection H as <-; exists buf; repeat split; auto; intros; lia.
  - destruct ((Z.of_nat (2 * j) <? sz) && (Z.of_nat (2 * j) <? cb_numVerts bd * 2)) eqn:Hc.
    2: { injection H as <-; exists buf; do 3 (split; [auto|]); split; [auto|].
         intros k0 v0 Hk Hn Hs _; exfalso.
         apply andb_false_iff in Hc as [Hc|Hc]; apply Z.ltb_ge in Hc; lia. }
    rewrite half_even in H.
    destruct (nth_error (cb_verts bd) j) as [v0|] eqn:Hv; [|discriminate].
    unfold bind in H.
    destruct (store _ _ _ s) as [|[] s1] eqn:E1; [discriminate|].
    destruct (store _ _ _ s1) as [|[] s2] eqn:E2; [discriminate|].
    apply store_effect with (buf := buf) in E1 as [R1 B1]; [|assumption].
    rewrite Nat2Z.id in B1.
    set (buf1 := mkBuffer (buf_array buf) (replace_nth (buf_data buf) (2 * j) (JDouble (lat v0))))
      in B1.
    assert (Hb1 : nth_error (buffers s1) bi = Some (Some buf1)).
    { rewrite B1; apply nth_error_replace_nth_eq; eapply nth_error_some_lt; eassumption. }
    assert (Hl1 : length (buf_data buf1) = length (buf_data buf))
      by (cbn; apply replace_nth_length).
    apply store_effect with (buf := buf1) in E2 as [R2 B2]; [|assumption].
    replace (Z.to_nat (Z.of_nat (2 * j) + 1)) with (2 * j + 1)%nat in B2 by lia.
    set (buf2 := mkBuffer (buf_array buf1)
                   (replace_nth (buf_data buf1) (2 * j + 1) (JDouble (lng v0)))) in B2.
    assert (Hb2 : nth_error (buffers s2) bi = Some (Some buf2)).
    { rewrite B2; apply nth_error_replace_nth_eq; eapply nth_error_some_lt; eassumption. }
    assert (Hl2 : length (buf_data buf2) = length (buf_data buf1))
      by (cbn; apply replace_nth_length).
    replace (Z.of_nat (2 * j) + 2) with (Z.of_nat (2 * S j)) in H by lia.
    destruct (IH (S j) s2 s' buf2 H Hb2) as (buf' & Hb' & Ha' & Hl' & Hkeep & Hw).
    rewrite Hl1 in R2.
    exists buf'; split; [assumption|]; split; [rewrite Ha'; reflexivity|].
    split; [lia|]; split.
    + intros m Hm; rewrite Hkeep by lia; subst buf2 buf1; cbn.
      rewrite !nth_error_replace_nth_neq by lia; reflexivity.
    + intros k v Hk Hn Hs Hkv.
      destruct (Nat.eq_dec k j) as [->|Hne].
      * rewrite Hv in Hkv; injection Hkv as <-.
        rewrite !Hkeep by lia; subst buf2 buf1; cbn.
        rewrite nth_error_replace_nth_neq by lia.
        split; apply nth_error_replace_nth_eq;
          rewrite ?replace_nth_length; lia.
      * apply Hw; auto; lia.
Qed.

(** ** The hole layout *)

Lemma hole_loop_length p sizes : forall off, length (hole_loop p sizes off) = length sizes.
Proof. induction sizes; intros; cbn; auto. Qed.

Lemma hole_loop_nth p sizes : forall off i,
  nth_error (hole_loop p sizes off) i =
  option_map (fun sz => mkGeoLoop (Z.quot sz 2) (ptr_add p (off + hole_offset sizes i)))
    (nth_error sizes i).
Proof.
  unfold hole_offset.
  induction sizes as [|sz rest IH]; intros off [|i]; cbn; auto.
  - rewrite Z.add_0_r; reflexivity.
  - rewrite IH; destruct (nth_error rest i); cbn; auto.
    do 3 f_equal; lia.
Qed.

Section Claims.

Variable h3 : H3Lib.
Variable alloc_fails : nat -> bool.

Ltac finish_translation :=
  first [ exists []; split; [symmetry; apply app_nil_r|]
        | eexists; split; [reflexivity|] ];
  split; [cbn; lia|]; split;
  [ intros ev Hin Herr; cbn in Hin; (contradiction || destruct Hin as [<-|[]]);
    cbn in Herr |- *;
    first [ congruence | left; reflexivity
          | right; split; [reflexivity | split; cbn; [lia | assumption]] ]
  | intros e He;
    first [ congruence
          | injection He as <-; eexists; split; [left; reflexivity|]; cbn; split; auto ] ].

Ltac solve_translation :=
  cbn in *;
  repeat match goal with D : _ \/ _ |- _ => destruct D as [?|[? ?]] end;
  subst; finish_translation.

(** Claim C1: every operation makes at most one native call.  When that call
    returns an error code, the pending exception is the [H3Exception] with
    that code, or the JVM's [OutOfMemoryError] when the last allocation of the
    run, the one of the exception object, failed.  An [H3Exception] with code
    [e] is pending only if the native call returned the error code [e]. *)
Theorem binding_error_translation (op : Op) (s : JState) (u : unit) (s' : JState) :
  pending s = None ->
  run_op h3 alloc_fails op s = Done u s' ->
  exists new, calls s' = calls s ++ new /\ (length new <= 1)%nat /\
    (forall ev, In ev new -> is_err (ev_err ev) = true ->
       pending s' = Some (ExH3 (ev_err ev)) \/
       (pending s' = Some ExOOM /\ last_alloc_failed alloc_fails s s')) /\
    (forall e, pending s' = Some (ExH3 e) ->
       exists ev, In ev new /\ ev_err ev = e /\ is_err e = true).
Proof.
  intros Hp H.
  destruct op; run_in H; use_frames.
  all: injection H as <- <-; solve_translation.
Qed.



(** Unify the results of two lookups of the same array. *)
Ltac same_lookup :=
  repeat match goal with
  | H : Some _ = Some _ |- _ => injection H as H; subst
  | H1 : ?x = Some _, H2 : ?x = Some _ |- _ => rewrite H1 in H2
  end.

(** Claim C7: with an array shorter than [res0CellCount()] (resp.
    [pentagonCount()]), [getRes0Cells] (resp. [getPentagons]) returns with an
    error pending, with no native call and the arrays and pinned buffers as
    they were. *)
Theorem res0_pentagons_capacity_checked (res : Z) (results : nat) (s : JState)
  (arr : list jval) :
  nth_error (arrays s) results = Some arr ->
  (Z.of_nat (length arr) < res0CellCount h3 ->
   exists s', Java_com_uber_h3core_NativeMethods_getRes0Cells h3 alloc_fails results s =
              Done tt s' /\
     calls s' = calls s /\ arrays s' = arrays s /\ buffers s' = buffers s /\
     pending s' = Some ExOOM) /\
  (Z.of_nat (length arr) < pentagonCount h3 ->
   exists s', Java_com_uber_h3core_NativeMethods_getPentagons h3 alloc_fails res results s =
              Done tt s' /\
     calls s' = calls s /\ arrays s' = arrays s /\ buffers s' = buffers s /\
     pending s' = Some ExOOM).
Proof.
  destruct s as [a o b p n c]; cbn; intros Ha; split; intros Hlt.
  - remember (Java_com_uber_h3core_NativeMethods_getRes0Cells h3 alloc_fails results
                (mkJState a o b p n c)) as r eqn:E.
    symmetry in E; run_in E; same_lookup; try congruence;
      try (match goal with H : (_ <? _) = false |- _ => apply Z.ltb_ge in H; lia end);
      subst; eexists; (split; [reflexivity|]); cbn; auto.
  - remember (Java_com_uber_h3core_NativeMethods_getPentagons h3 alloc_fails res results
                (mkJState a o b p n c)) as r eqn:E.
    symmetry in E; run_in E; same_lookup; try congruence;
      try (match goal with H : (_ <? _) = false |- _ => apply Z.ltb_ge in H; lia end);
      subst; eexists; (split; [reflexivity|]); cbn; auto.
Qed.

(** Claim C9: when the native call reports an error, [cellToChildPos] and
    [childPosToCell] return 0, and [constructCell] returns its initial 0 (for a
    native [constructCell] that leaves its output unwritten on error). *)
Theorem zero_result_on_native_error :
  (forall (child parentRes : Z) (s : JState) (r : option Z) (s' : JState),
     is_err (fst (cellToChildPos h3 child parentRes)) = true ->
     Java_com_uber_h3core_NativeMethods_cellToChildPos h3 alloc_fails child parentRes s =
       Done r s' -> r = Some 0) /\
  (forall (childPos parent childRes : Z) (s : JState) (r : option Z) (s' : JState),
     is_err (fst (childPosToCell h3 childPos parent childRes)) = true ->
     Java_com_uber_h3core_NativeMethods_childPosToCell h3 alloc_fails childPos parent childRes s =
       Done r s' -> r = Some 0) /\
  (forall (res baseCell : Z) (digits : nat) (s : JState) (r : option Z) (s' : JState)
          (e : H3Error),
     (forall ds, is_err (fst (constructCell h3 res baseCell ds)) = true ->
                 snd (constructCell h3 res baseCell ds) = None) ->
     Java_com_uber_h3core_NativeMethods_constructCell h3 alloc_fails res baseCell digits s =
       Done r s' ->
     calls s' = calls s ++ [Called "constructCell" None e] -> is_err e = true ->
     r = Some 0).
Proof.
  split; [|split].
  - intros child parentRes s r s' Herr H.
    destruct (cellToChildPos h3 child parentRes) as [e pos] eqn:Ec; cbn in Herr.
    run_in H; rewrite ?Ec in *; cbn in *; try congruence.
    all: injection H as <- <-; reflexivity.
  - intros childPos parent childRes s r s' Herr H.
    destruct (childPosToCell h3 childPos parent childRes) as [e pos] eqn:Ec; cbn in Herr.
    run_in H; rewrite ?Ec in *; cbn in *; try congruence.
    all: injection H as <- <-; reflexivity.
  - intros res baseCell digits s r s' e Hnat H Hc He.
    run_in H; injection H as <- <-; cbn in *; try reflexivity.
    all: match goal with
         | Hp : constructCell h3 _ _ ?ds = _ |- _ =>
             specialize (Hnat ds); rewrite Hp in Hnat; cbn in Hnat
         end.
    all: repeat match goal with
         | E : ?l ++ [?x] = ?l ++ [?y] |- _ =>
             apply app_inv_head in E; injection E as E; subst
         end.
    all: subst; first [congruence | discriminate (Hnat He)].
Qed.

(** Claim C10: when the native conversion of [cellToLatLng], [vertexToLatLng]
    or [cellToLocalIj] fails, the call returns with an exception pending and
    with the Java arrays and the pinned buffers as they were. *)
Theorem conversion_error_leaves_output (h origin : H3Index) (out : nat) (s : JState) :
  (is_err (fst (cellToLatLng h3 h)) = true ->
   exists s', Java_com_uber_h3core_NativeMethods_cellToLatLng h3 alloc_fails h out s = Done tt s' /\
     arrays s' = arrays s /\ buffers s' = buffers s /\ pending s' <> None) /\
  (is_err (fst (vertexToLatLng h3 h)) = true ->
   exists s', Java_com_uber_h3core_NativeMethods_vertexToLatLng h3 alloc_fails h out s = Done tt s' /\
     arrays s' = arrays s /\ buffers s' = buffers s /\ pending s' <> None) /\
  (is_err (fst (cellToLocalIj h3 origin h 0)) = true ->
   exists s', Java_com_uber_h3core_NativeMethods_cellToLocalIj h3 alloc_fails origin h out s =
              Done tt s' /\
     arrays s' = arrays s /\ buffers s' = buffers s /\ pending s' <> None).
Proof.
  destruct s as [a o b p n c].
  split; [|split]; intros Herr.
  - remember (Java_com_uber_h3core_NativeMethods_cellToLatLng h3 alloc_fails h out
                (mkJState a o b p n c)) as r eqn:E.
    destruct (cellToLatLng h3 h) as [e ll] eqn:Ec; cbn in Herr.
    symmetry in E; run_in E; rewrite ?Ec in *; cbn in *; try congruence.
    all: subst; eexists; (split; [reflexivity|]); cbn; repeat split; congruence.
  - remember (Java_com_uber_h3core_NativeMethods_vertexToLatLng h3 alloc_fails h out
                (mkJState a o b p n c)) as r eqn:E.
    destruct (vertexToLatLng h3 h) as [e ll] eqn:Ec; cbn in Herr.
    symmetry in E; run_in E; rewrite ?Ec in *; cbn in *; try congruence.
    all: subst; eexists; (split; [reflexivity|]); cbn; repeat split; congruence.
  - remember (Java_com_uber_h3core_NativeMethods_cellToLocalIj h3 alloc_fails origin h out
                (mkJState a o b p n c)) as r eqn:E.
    destruct (cellToLocalIj h3 origin h 0) as [e ij] eqn:Ec; cbn in Herr.
    symmetry in E; run_in E; rewrite ?Ec in *; cbn in *; try congruence.
    all: subst; eexists; (split; [reflexivity|]); cbn; repeat split; congruence.
Qed.

(** Claim C4: [polygonToCellsExperimental] makes at most one native call,
    passing the length of the results array as the bound, and an error it
    reports (such as [E_MEMORY_BOUNDS]) is left pending as an [H3Exception]
    (or as the JVM's [OutOfMemoryError] when that exception cannot be
    allocated); [polygonToCells] makes at most one native call, with no bound. *)
Theorem polygon_fill_capacity (verts holeSizes holeVerts : nat) (res flags : Z) (results : nat)
  (s : JState) (arr : list jval) (u : unit) (s' : JState) :
  nth_error (arrays s) results = Some arr -> pending s = None ->
  (Java_com_uber_h3core_NativeMethods_polygonToCellsExperimental h3 alloc_fails
     verts holeSizes holeVerts res flags results s = Done u s' ->
   calls s' = calls s \/
   exists poly e,
     e = fst (polygonToCellsExperimental h3 poly res flags (Z.of_nat (length arr))) /\
     calls s' = calls s ++
       [Called "polygonToCellsExperimental" (Some (Z.of_nat (length arr))) e] /\
     (is_err e = true ->
      pending s' = Some (ExH3 e) \/
      (pending s' = Some ExOOM /\ some_alloc_failed alloc_fails))) /\
  (Java_com_uber_h3core_NativeMethods_polygonToCells h3 alloc_fails
     verts holeSizes holeVerts res flags results s = Done u s' ->
   calls s' = calls s \/
   exists poly e,
     e = fst (polygonToCells h3 poly res flags) /\
     calls s' = calls s ++ [Called "polygonToCells" None e]).
Proof.
  destruct s as [a o b p n c]; cbn; intros Ha Hp; subst p; split; intros H.
  - run_in H; same_lookup; injection H as <- <-; cbn; auto.
    all: right; match goal with
         | E : polygonToCellsExperimental h3 ?poly _ _ _ = (?e, _) |- _ =>
             exists poly, e; rewrite E; split; [reflexivity|]
         end.
    all: split; [reflexivity|]; intros He; first [congruence | left; reflexivity
          | right; split; [reflexivity | eexists; eassumption]].
  - run_in H; same_lookup; injection H as <- <-; cbn; auto.
    all: right; match goal with
         | E : polygonToCells h3 ?poly _ _ = (?e, _) |- _ =>
             exists poly, e; rewrite E; split; reflexivity
         end.
Qed.

(** Claim C5: [cellToBoundary] returns -1 after a native error or a failed
    pin; otherwise it returns [numVerts] (between 0 and 10 for the boundaries
    the library returns) and the caller's array holds vertex [k] at [2k] and
    [2k + 1] for every vertex [k < numVerts] whose pair fits the array. *)
Theorem cellToBoundary_result (h : H3Index) (verts : nat) (s : JState) (r : Z) (s' : JState) :
  Java_com_uber_h3core_NativeMethods_cellToBoundary h3 alloc_fails h verts s = Done r s' ->
  (is_err (fst (cellToBoundary h3 h)) = true -> r = -1) /\
  (is_err (fst (cellToBoundary h3 h)) = false -> alloc_fails (allocs s) = true -> r = -1) /\
  (is_err (fst (cellToBoundary h3 h)) = false -> alloc_fails (allocs s) = false ->
   cb_wf (snd (cellToBoundary h3 h)) ->
   r = cb_numVerts (snd (cellToBoundary h3 h)) /\ 0 <= r <= 10 /\
   exists arr arr', nth_error (arrays s) verts = Some arr /\
     nth_error (arrays s') verts = Some arr' /\ length arr' = length arr /\
     forall k v, Z.of_nat k < r -> (2 * k + 1 < length arr)%nat ->
       nth_error (cb_verts (snd (cellToBoundary h3 h))) k = Some v ->
       nth_error arr' (2 * k) = Some (JDouble (lat v)) /\
       nth_error arr' (2 * k + 1) = Some (JDouble (lng v))).
Proof.
  intros H; unfold Java_com_uber_h3core_NativeMethods_cellToBoundary in H.
  destruct (cellToBoundary h3 h) as [e bd] eqn:Ec; cbn [fst snd].
  destruct s as [a o b p n c]; cbn [arrays allocs].
  run_in H; same_lookup; injection H as <- <-.
  all: try (split; [reflexivity|]; split; intros; [reflexivity|congruence]).
  all: try (split; [congruence|]; split; intros; [reflexivity|congruence]).
  split; [discriminate|]; split; [discriminate|]; intros _ _ [_ Hwf].
  split; [reflexivity|]; split; [lia|].
  match goal with u : unit |- _ => destruct u end.
  match goal with
  | E : boundary_loop _ _ _ _ _ _ = Done _ _ |- _ => pose proof E as Eq; rename E into Eloop
  end.
  apply boundary_loop_quiet in Eq; destruct Eq as (_ & Ha0 & _).
  cbn in Ha0; subst arrays0.
  pose proof (boundary_loop_writes (length b) _ bd _ 0 _ _ (mkBuffer verts l)
                Eloop (nth_error_app_last _ _)) as (buf' & Hb' & _ & Hl' & _ & Hw).
  cbn in Hb'; rewrite Heqo3 in Hb'.
  injection Hb' as <-; cbn in Hl', Hw.
  exists l, buf_data0; split; [reflexivity|]; cbn.
  rewrite nth_error_replace_nth_eq by (eapply nth_error_some_lt; eassumption).
  split; [reflexivity|]; split; [assumption|].
  intros k v Hk Hkl Hv; apply Hw; auto; lia.
Qed.
(** [directedEdgeToBoundary] returns -1 after a library error or a failed
    pin; otherwise, for a well-formed boundary from the library, it returns
    its vertex count (between 0 and 10) and writes vertex [k] at [2k] and
    [2k + 1] for every [k] below that count whose two slots fit in the array,
    whose length does not change. *)
Theorem directedEdgeToBoundary_result (h : H3Index) (verts : nat) (s : JState) (r : Z) (s' : JState) :
  Java_com_uber_h3core_NativeMethods_directedEdgeToBoundary h3 alloc_fails h verts s = Done r s' ->
  (is_err (fst (directedEdgeToBoundary h3 h)) = true -> r = -1) /\
  (is_err (fst (directedEdgeToBoundary h3 h)) = false -> alloc_fails (allocs s) = true -> r = -1) /\
  (is_err (fst (directedEdgeToBoundary h3 h)) = false -> alloc_fails (allocs s) = false ->
   cb_wf (snd (directedEdgeToBoundary h3 h)) ->
   r = cb_numVerts (snd (directedEdgeToBoundary h3 h)) /\ 0 <= r <= 10 /\
   exists arr arr', nth_error (arrays s) verts = Some arr /\
     nth_error (arrays s') verts = Some arr' /\ length arr' = length arr /\
     forall k v, Z.of_nat k < r -> (2 * k + 1 < length arr)%nat ->
       nth_error (cb_verts (snd (directedEdgeToBoundary h3 h))) k = Some v ->
       nth_error arr' (2 * k) = Some (JDouble (lat v)) /\
       nth_error arr' (2 * k + 1) = Some (JDouble (lng v))).
Proof.
  intros H; unfold Java_com_uber_h3core_NativeMethods_directedEdgeToBoundary in H.
  destruct (directedEdgeToBoundary h3 h) as [e bd] eqn:Ec; cbn [fst snd].
  destruct s as [a o b p n c]; cbn [arrays allocs].
  run_in H; same_lookup; injection H as <- <-.
  all: try (split; [reflexivity|]; split; intros; [reflexivity|congruence]).
  all: try (split; [congruence|]; split; intros; [reflexivity|congruence]).
  split; [discriminate|]; split; [discriminate|]; intros _ _ [_ Hwf].
  split; [reflexivity|]; split; [lia|].
  match goal with u : unit |- _ => destruct u end.
  match goal with
  | E : boundary_loop _ _ _ _ _ _ = Done _ _ |- _ => pose proof E as Eq; rename E into Eloop
  end.
  apply boundary_loop_quiet in Eq; destruct Eq as (_ & Ha0 & _).
  cbn in Ha0; subst arrays0.
  pose proof (boundary_loop_writes (length b) _ bd _ 0 _ _ (mkBuffer verts l)
                Eloop (nth_error_app_last _ _)) as (buf' & Hb' & _ & Hl' & _ & Hw).
  cbn in Hb'; rewrite Heqo3 in Hb'.
  injection Hb' as <-; cbn in Hl', Hw.
  exists l, buf_data0; split; [reflexivity|]; cbn.
  rewrite nth_error_replace_nth_eq by (eapply nth_error_some_lt; eassumption).
  split; [reflexivity|]; split; [assumption|].
  intros k v Hk Hkl Hv; apply Hw; auto; lia.
Qed.

(** Claim C6: a successful [CreateGeoPolygon] builds the outer loop on the
    pinned copy of [verts] with [length verts / 2] vertices and one hole per
    entry of [holeSizes], hole [i] with [holeSizes[i] / 2] vertices at the sum
    of the preceding sizes in the pinned copy of [holeVerts]; neither it nor
    [DestroyGeoPolygon] changes a Java array. *)
Theorem CreateGeoPolygon_layout (verts holeSizes holeVerts : nat) (s : JState)
  (va hsa : list jval) (e : H3Error) (polygon : GeoPolygon) (s' : JState) :
  nth_error (arrays s) verts = Some va -> nth_error (arrays s) holeSizes = Some hsa ->
  CreateGeoPolygon alloc_fails verts holeSizes holeVerts s = Done (e, polygon) s' ->
  e = E_SUCCESS ->
  arrays s' = arrays s /\
  (exists bv, gl_verts (geoloop polygon) = PBuf bv 0 /\
     nth_error (buffers s') bv = Some (Some (mkBuffer verts va))) /\
  gl_numVerts (geoloop polygon) = Z.quot (Z.of_nat (length va)) 2 /\
  numHoles polygon = Z.of_nat (length hsa) /\
  (hsa <> [] -> exists bh hva,
     nth_error (arrays s) holeVerts = Some hva /\
     nth_error (buffers s') bh = Some (Some (mkBuffer holeVerts hva)) /\
     length (holes polygon) = length hsa /\
     forall i sz, nth_error (map jz hsa) i = Some sz ->
       nth_error (holes polygon) i =
         Some (mkGeoLoop (Z.quot sz 2) (PBuf bh (hole_offset (map jz hsa) i)))) /\
  (forall s'', DestroyGeoPolygon verts holeSizes holeVerts polygon s' = Done tt s'' ->
     arrays s'' = arrays s).
Proof.
  destruct s as [a o b p n c]; cbn [arrays]; intros Hv Hhs H He; subst e.
  run_in H; same_lookup; injection H as <- <-; try discriminate.
  all: repeat match goal with
       | E : nth_error (_ ++ _) _ = _ |- _ =>
           rewrite <- ?app_assoc, ?length_app in E; cbn [app length] in E;
           rewrite nth_error_app_plus in E; cbn in E; injection E as E
       end.
  all: try subst buf_data0; try subst buf_array0; cbn.
  all: split; [reflexivity|].
  all: split; [exists (length b); split; [reflexivity|] |].
  all: try (rewrite ?nth_error_replace_nth_neq by (rewrite !length_app; cbn; lia);
            rewrite <- ?app_assoc, nth_error_app2, Nat.sub_diag by lia; reflexivity).
  all: split; [reflexivity|]; split; [reflexivity|].
  all: split; [intros Hne | intros s'' HD; run_in HD; injection HD as <-; reflexivity].
  - exists (length ((b ++ [Some (mkBuffer verts va)]) ++ [Some (mkBuffer holeSizes hsa)])), l3.
    split; [reflexivity|].
    rewrite nth_error_replace_nth_neq by (rewrite !length_app; cbn; lia).
    rewrite nth_error_app_last; split; [reflexivity|].
    rewrite Nat2Z.id, firstn_all; split.
    + rewrite hole_loop_length, length_map; reflexivity.
    + intros i sz Hi; rewrite hole_loop_nth, Hi; reflexivity.
  - apply Z.ltb_ge in Heqb1; destruct hsa; [contradiction|cbn in Heqb1; lia].
Qed.

End Claims.

(** ** More of the binding *)

Lemma replace_nth_app_last {A} (l : list A) x y : replace_nth (l ++ [x]) (length l) y = l ++ [y].
Proof. induction l; cbn; f_equal; auto. Qed.

Lemma skipn_replace_nth {A} (l : list A) n m x : (n < m)%nat -> skipn m (replace_nth l n x) = skipn m l.
Proof. revert n m; induction l; intros [|n] [|m] H; cbn; auto; try lia; apply IHl; lia. Qed.

Lemma firstn_replace_nth {A} (l : list A) n x : (n < length l)%nat ->
  firstn (S n) (replace_nth l n x) = firstn n l ++ [x].
Proof. revert n; induction l; intros [|n] H; cbn in *; try lia; auto. f_equal; apply IHl; lia. Qed.

Lemma write_at_spec {A} (xs : list A) : forall l n, (n + length xs <= length l)%nat ->
  write_at l n xs = firstn n l ++ xs ++ skipn (n + length xs) l.
Proof.
  induction xs as [|x xs IH]; intros l n Hn; cbn.
  - rewrite Nat.add_0_r, firstn_skipn; reflexivity.
  - cbn in Hn. rewrite IH by (rewrite replace_nth_length; lia).
    rewrite firstn_replace_nth by lia.
    rewrite skipn_replace_nth by lia.
    rewrite <- app_assoc.
    replace (S n + length xs)%nat with (n + S (length xs))%nat by lia; reflexivity.
Qed.

(** [ThrowOutOfMemoryError] always returns with an [OutOfMemoryError] pending,
    also when allocating the error object fails, and changes no Java array,
    buffer or call log. *)
Theorem ThrowOutOfMemoryError_pending alloc_fails s :
  exists s', ThrowOutOfMemoryError alloc_fails s = Done tt s' /\
    pending s' = Some ExOOM /\ arrays s' = arrays s /\ buffers s' = buffers s /\ calls s' = calls s.
Proof.
  destruct s as [a o b p n c].
  remember (ThrowOutOfMemoryError alloc_fails (mkJState a o b p n c)) as r eqn:E.
  symmetry in E; run_in E.
  all: subst; eexists; split; [reflexivity|]; cbn; auto.
Qed.

(** [ThrowH3Exception err] returns with [H3Exception err] pending, or with an
    [OutOfMemoryError] when the exception object cannot be allocated; it
    changes no Java array, buffer or call log. *)
Theorem ThrowH3Exception_pending alloc_fails err s :
  exists s', ThrowH3Exception alloc_fails err s = Done tt s' /\
    pending s' = Some (if alloc_fails (allocs s) then ExOOM else ExH3 err) /\
    arrays s' = arrays s /\ buffers s' = buffers s /\ calls s' = calls s.
Proof.
  destruct s as [a o b p n c]; cbn [allocs].
  remember (ThrowH3Exception alloc_fails err (mkJState a o b p n c)) as r eqn:E.
  symmetry in E; run_in E.
  all: subst; eexists; split; [reflexivity|]; cbn; rewrite ?Heqb0; auto.
Qed.

Ltac crunch :=
  repeat (match goal with
  | H : context [replace_nth (?l ++ [_]) (length ?l) _] |- _ => rewrite replace_nth_app_last in H
  | H : context [nth_error (?l ++ [_]) (length ?l)] |- _ => rewrite nth_error_app_last in H
  | H : Some _ = Some _ |- _ => injection H; clear H; intros
  | H : (_, _) = (_, _) |- _ => injection H; clear H; intros
  | H : context [length (replace_nth _ _ _)] |- _ => rewrite replace_nth_length in H
  | H : (?x =? ?x)%nat = false |- _ => rewrite Nat.eqb_refl in H; discriminate H
  | H : (_ <=? _) = false |- _ => apply Z.leb_gt in H
  | H : (_ <=? _) = true |- _ => apply Z.leb_le in H
  | H : (_ <? _) = false |- _ => apply Z.ltb_ge in H
  | H : (_ <? _) = true |- _ => apply Z.ltb_lt in H
  end; subst).

(** When the results array pins, the array-filling wrappers write the
    library's output over the start of the results array, keep the rest,
    release the buffer, log one call and throw exactly when the library fails. *)
Theorem fill_call_writes alloc_fails fn results (r : H3Error * list jval) s arr :
  nth_error (arrays s) results = Some arr ->
  alloc_fails (allocs s) = false ->
  (length (snd r) <= length arr)%nat ->
  exists s', fill_call alloc_fails fn results r s = Done tt s' /\
    arrays s' = replace_nth (arrays s) results (snd r ++ skipn (length (snd r)) arr) /\
    buffers s' = buffers s ++ [None] /\
    calls s' = calls s ++ [Called fn None (fst r)] /\
    pending s' = (if is_err (fst r) then
                    Some (if alloc_fails (S (allocs s)) then ExOOM else ExH3 (fst r))
                  else pending s).
Proof.
  destruct s as [a o b p n c]; cbn [arrays allocs buffers calls pending]; intros Ha Hal Hlen.
  destruct r as [e cs]; cbn [fst snd] in *.
  remember (fill_call alloc_fails fn results (e, cs) (mkJState a o b p n c)) as r eqn:E.
  symmetry in E; run_in E; crunch; try (exfalso; lia); try congruence.
  all: eexists; split; [reflexivity|]; cbn.
  all: rewrite ?replace_nth_app_last, ?write_at_spec by (cbn; lia); cbn.
  all: repeat split; rewrite ?app_nil_r; reflexivity.
Qed.

(** [directedEdgeToCells] and [originToDirectedEdges]: an array shorter than
    the minimum gets an [OutOfMemoryError], no library call and its buffer, if
    pinned, released; a long enough one whose pin succeeds receives the
    library's output, with the buffer released and one call logged. *)
Theorem checked_fill_call_outcome alloc_fails fn min results (r : H3Error * list jval) s arr :
  nth_error (arrays s) results = Some arr ->
  (Z.of_nat (length arr) < min ->
   exists s', checked_fill_call alloc_fails fn min results r s = Done tt s' /\
     arrays s' = arrays s /\ calls s' = calls s /\ pending s' = Some ExOOM /\
     buffers s' = buffers s ++ (if alloc_fails (allocs s) then [] else [None])) /\
  (min <= Z.of_nat (length arr) -> alloc_fails (allocs s) = false ->
   (length (snd r) <= length arr)%nat ->
   exists s', checked_fill_call alloc_fails fn min results r s = Done tt s' /\
     arrays s' = replace_nth (arrays s) results (snd r ++ skipn (length (snd r)) arr) /\
     buffers s' = buffers s ++ [None] /\
     calls s' = calls s ++ [Called fn None (fst r)] /\
     pending s' = (if is_err (fst r) then
                     Some (if alloc_fails (S (allocs s)) then ExOOM else ExH3 (fst r))
                   else pending s)).
Proof.
  destruct s as [a o b p n c]; cbn [arrays allocs buffers calls pending]; intros Ha.
  destruct r as [e cs]; cbn [fst snd] in *.
  remember (checked_fill_call alloc_fails fn min results (e, cs) (mkJState a o b p n c)) as r eqn:E.
  symmetry in E; split; [intros Hmin | intros Hmin Hal Hlen].
  all: run_in E; crunch; try (exfalso; lia); try congruence.
  all: eexists; split; [reflexivity|]; cbn.
  all: rewrite ?replace_nth_app_last, ?write_at_spec by (cbn; lia); cbn.
  all: rewrite ?replace_nth_same by assumption.
  all: repeat split; rewrite ?app_nil_r; reflexivity.
Qed.

Lemma replace_nth_twice {A} (l : list A) n x y :
  replace_nth (replace_nth l n x) n y = replace_nth l n y.
Proof. revert n; induction l; intros [|n]; cbn; f_equal; auto. Qed.

Ltac done_state := eexists; split; [reflexivity|].

Ltac finish_coords :=
  cbn [fst snd] in *; crunch; try (exfalso; lia); try congruence;
  done_state; cbn;
  rewrite ?replace_nth_twice, ?replace_nth_app_last;
  match goal with Hlen : (2 <= length ?arr)%nat |- _ =>
    destruct arr as [|? [|? ?]]; cbn in Hlen; try lia end;
  repeat split; reflexivity.

(** On success of the library, [cellToLatLng], [vertexToLatLng] and
    [cellToLocalIj] write the two coordinates into the first two slots of an
    array of length at least 2 whose pin succeeds, release the buffer and log
    one call. *)
Theorem coords_written h3 alloc_fails (h origin : H3Index) (out : nat) s arr :
  nth_error (arrays s) out = Some arr -> (2 <= length arr)%nat ->
  alloc_fails (allocs s) = false ->
  (is_err (fst (cellToLatLng h3 h)) = false ->
   exists s', Java_com_uber_h3core_NativeMethods_cellToLatLng h3 alloc_fails h out s = Done tt s' /\
     arrays s' = replace_nth (arrays s) out
       (JDouble (lat (snd (cellToLatLng h3 h))) :: JDouble (lng (snd (cellToLatLng h3 h)))
          :: skipn 2 arr) /\
     buffers s' = buffers s ++ [None] /\ pending s' = pending s /\
     calls s' = calls s ++ [Called "cellToLatLng" None (fst (cellToLatLng h3 h))]) /\
  (is_err (fst (vertexToLatLng h3 h)) = false ->
   exists s', Java_com_uber_h3core_NativeMethods_vertexToLatLng h3 alloc_fails h out s = Done tt s' /\
     arrays s' = replace_nth (arrays s) out
       (JDouble (lat (snd (vertexToLatLng h3 h))) :: JDouble (lng (snd (vertexToLatLng h3 h)))
          :: skipn 2 arr) /\
     buffers s' = buffers s ++ [None] /\ pending s' = pending s /\
     calls s' = calls s ++ [Called "vertexToLatLng" None (fst (vertexToLatLng h3 h))]) /\
  (is_err (fst (cellToLocalIj h3 origin h 0)) = false ->
   exists s', Java_com_uber_h3core_NativeMethods_cellToLocalIj h3 alloc_fails origin h out s =
              Done tt s' /\
     arrays s' = replace_nth (arrays s) out
       (JInt (ij_i (snd (cellToLocalIj h3 origin h 0))) ::
        JInt (ij_j (snd (cellToLocalIj h3 origin h 0))) :: skipn 2 arr) /\
     buffers s' = buffers s ++ [None] /\ pending s' = pending s /\
     calls s' = calls s ++ [Called "cellToLocalIj" None (fst (cellToLocalIj h3 origin h 0))]).
Proof.
  destruct s as [a o b p n c]; cbn [arrays allocs buffers calls pending]; intros Ha Hlen Hal.
  split; [|split]; intros Herr.
  - remember (Java_com_uber_h3core_NativeMethods_cellToLatLng h3 alloc_fails h out
                (mkJState a o b p n c)) as r eqn:E.
    destruct (cellToLatLng h3 h) as [e ll] eqn:Ec; cbn [fst snd] in *.
    symmetry in E; run_in E; rewrite ?Ec in *; finish_coords.
  - remember (Java_com_uber_h3core_NativeMethods_vertexToLatLng h3 alloc_fails h out
                (mkJState a o b p n c)) as r eqn:E.
    destruct (vertexToLatLng h3 h) as [e ll] eqn:Ec; cbn [fst snd] in *.
    symmetry in E; run_in E; rewrite ?Ec in *; finish_coords.
  - remember (Java_com_uber_h3core_NativeMethods_cellToLocalIj h3 alloc_fails origin h out
                (mkJState a o b p n c)) as r eqn:E.
    destruct (cellToLocalIj h3 origin h 0) as [e ij] eqn:Ec; cbn [fst snd] in *.
    symmetry in E; run_in E; rewrite ?Ec in *; finish_coords.
Qed.


Lemma mem_same_trans s1 s2 s3 : mem_same s1 s2 -> mem_same s2 s3 -> mem_same s1 s3.
Proof. unfold mem_same; intuition congruence. Qed.

Lemma new_object_mem alloc_fails o s r s' : NewObject alloc_fails o s = Done r s' -> mem_same s s'.
Proof.
  unfold NewObject, alloc, bind, ret, mem_same; intros H.
  destruct (alloc_fails (allocs s)); cbn in H; injection H as <- <-; cbn; auto.
Qed.

Lemma arraylist_add_mem alloc_fails l v s s' : ArrayList_add alloc_fails l v s = Done tt s' -> mem_same s s'.
Proof.
  unfold ArrayList_add, alloc, bind, ret, mem_same; intros H.
  destruct (alloc_fails (allocs s)); cbn in H.
  - injection H as <-; cbn; auto.
  - destruct (nth_error (objects s) l) as [[]|]; try discriminate; injection H as <-; cbn; auto.
Qed.

Ltac mem_step :=
  match goal with
  | H : NewObject _ _ ?s = Done _ ?s' |- _ =>
      apply new_object_mem in H; apply (mem_same_trans s s'); [exact H|]; clear H
  | H : ArrayList_add _ _ _ ?s = Done _ ?s' |- _ =>
      apply arraylist_add_mem in H; apply (mem_same_trans s s'); [exact H|]; clear H
  end.

Lemma mem_same_refl s : mem_same s s.
Proof. unfold mem_same; auto. Qed.

Lemma convert_coords_mem alloc_fails rl cs s r s' :
  convert_coords alloc_fails rl cs s = Done r s' -> mem_same s s'.
Proof.
  revert s; induction cs as [|c cs IH]; intros s H; simpl in H; unfold bind, ret in H.
  - injection H as _ <-; apply mem_same_refl.
  - destruct (NewObject alloc_fails _ s) as [|v s1] eqn:E1; [discriminate|].
    destruct v as [v|]; [|injection H as _ <-; mem_step; apply mem_same_refl].
    destruct (ArrayList_add alloc_fails rl v s1) as [|[] s2] eqn:E2; [discriminate|].
    unfold ExceptionCheck in H.
    mem_step; mem_step.
    destruct (pending s2); [injection H as _ <-; apply mem_same_refl|].
    apply (IH _ H).
Qed.

Lemma convert_loops_mem alloc_fails rl ls s r s' :
  convert_loops alloc_fails rl ls s = Done r s' -> mem_same s s'.
Proof.
  revert s; induction ls as [|l ls IH]; intros s H; simpl in H; unfold bind, ret in H.
  - injection H as _ <-; apply mem_same_refl.
  - destruct (NewObject alloc_fails _ s) as [|v s1] eqn:E1; [discriminate|].
    destruct v as [v|]; [|injection H as _ <-; mem_step; apply mem_same_refl].
    destruct (convert_coords alloc_fails v l s1) as [|c s2] eqn:E2; [discriminate|].
    apply convert_coords_mem in E2.
    mem_step; apply (mem_same_trans _ s2); [exact E2|].
    destruct c; [|injection H as _ <-; apply mem_same_refl].
    destruct (ArrayList_add alloc_fails rl v s2) as [|[] s3] eqn:E3; [discriminate|].
    unfold ExceptionCheck in H; mem_step.
    destruct (pending s3); [injection H as _ <-; apply mem_same_refl|].
    apply (IH _ H).
Qed.

Lemma convert_polygons_mem alloc_fails ps results s s' :
  ConvertLinkedGeoPolygonToManaged alloc_fails ps results s = Done tt s' -> mem_same s s'.
Proof.
  revert s; induction ps as [|p ps IH]; intros s H; simpl in H; unfold bind, ret in H.
  - injection H as <-; apply mem_same_refl.
  - destruct (NewObject alloc_fails _ s) as [|v s1] eqn:E1; [discriminate|].
    destruct v as [v|]; [|injection H as <-; mem_step; apply mem_same_refl].
    mem_step.
    destruct p as [|l p]; [apply (IH _ H)|].
    destruct (convert_loops alloc_fails v (l :: p) s1) as [|c s2] eqn:E2; [discriminate|].
    apply convert_loops_mem in E2; apply (mem_same_trans _ s2); [exact E2|].
    destruct c; [|injection H as <-; apply mem_same_refl].
    destruct (ArrayList_add alloc_fails results v s2) as [|[] s3] eqn:E3; [discriminate|].
    unfold ExceptionCheck in H; mem_step.
    destruct (pending s3); [injection H as <-; apply mem_same_refl|].
    apply (IH _ H).
Qed.

Lemma store_buffers bi off i v s s1 : store (PBuf bi off) i v s = Done tt s1 ->
  arrays s1 = arrays s /\ exists buf, buffers s1 = replace_nth (buffers s) bi (Some buf).
Proof.
  unfold store; intros H.
  destruct (nth_error (buffers s) bi) as [[buf|]|]; try discriminate.
  destruct (_ && _); [|discriminate]; injection H as <-; cbn; eauto.
Qed.

Lemma boundary_loop_buffers bi off sz bd fuel : forall i s s',
  boundary_loop (PBuf bi off) sz bd i fuel s = Done tt s' ->
  arrays s' = arrays s /\
  (buffers s' = buffers s \/ exists buf, buffers s' = replace_nth (buffers s) bi (Some buf)).
Proof.
  induction fuel as [|fuel IH]; intros i s s' H; cbn [boundary_loop] in H; unfold ret in H.
  - injection H as <-; auto.
  - destruct (_ && _); [|injection H as <-; auto].
    destruct (nth_error _ _); [|discriminate].
    unfold bind in H.
    destruct (store _ _ _ s) as [|[] s1] eqn:E1; [discriminate|].
    destruct (store _ _ _ s1) as [|[] s2] eqn:E2; [discriminate|].
    apply store_buffers in E1 as [A1 [b1 B1]]; apply store_buffers in E2 as [A2 [b2 B2]].
    apply IH in H as [A3 [B3|[b3 B3]]]; split; try congruence; right.
    + exists b2; rewrite B3, B2, B1, replace_nth_twice; reflexivity.
    + exists b3; rewrite B3, B2, B1, !replace_nth_twice; reflexivity.
Qed.

Lemma replace_nth_app_r {A} (l r : list A) k y :
  replace_nth (l ++ r) (length l + k) y = l ++ replace_nth r k y.
Proof. induction l; cbn; f_equal; auto. Qed.

Lemma replace_nth_app_r0 {A} (l r : list A) y :
  replace_nth (l ++ r) (length l) y = l ++ replace_nth r 0 y.
Proof. rewrite <- (Nat.add_0_r (length l)); apply replace_nth_app_r. Qed.

Lemma hole_loop_cons_ptr p sizes off g rest :
  hole_loop p sizes off = g :: rest -> gl_verts g = ptr_add p off.
Proof. destruct sizes; cbn; intros H; [discriminate|injection H as <- _; reflexivity]. Qed.

Ltac use_mem :=
  repeat match goal with
  | E : boundary_loop (PBuf _ _) _ _ _ _ _ = Done ?u _ |- _ =>
      destruct u; apply boundary_loop_buffers in E; cbn in E; destruct E as [? [?|[? ?]]]
  | E : ConvertLinkedGeoPolygonToManaged _ _ _ _ = Done ?u _ |- _ =>
      destruct u; apply convert_polygons_mem in E; unfold mem_same in E; cbn in E;
      destruct E as [? ?]
  end.

(** Every wrapper except [cellToVertexes] releases every buffer it pins: after
    a run, the buffer table is the one before followed by released slots only. *)
Theorem pinned_buffers_released h3 alloc_fails op s u s' :
  (forall h v, op <> OcellToVertexes h v) ->
  run_op h3 alloc_fails op s = Done u s' ->
  exists k, buffers s' = buffers s ++ repeat None k.
Proof.
  intros Hop H; destruct s as [a o b p n c]; cbn [buffers].
  destruct op; run_in H; use_mem.
  all: try (exfalso; eapply Hop; reflexivity).
  all: repeat match goal with
       | E : hole_loop _ _ _ = _ :: _ |- _ =>
           apply hole_loop_cons_ptr in E; cbn in E; injection E; clear E; intros; subst
       end.
  all: try (match goal with Hx : is_err E_SUCCESS = true |- _ => discriminate Hx end).
  all: injection H as <- <-; cbn.
  all: subst.
  all: rewrite ?replace_nth_length, ?length_app; cbn [length app].
  all: rewrite <- ?app_assoc, <- ?Nat.add_assoc; cbn [app Nat.add].
  all: repeat (first [rewrite replace_nth_app_r0 | rewrite replace_nth_app_r
                      | rewrite <- app_assoc]; cbn [replace_nth app]).
  all: rewrite ?replace_nth_twice.
  all: try (exists 0%nat; symmetry; apply app_nil_r).
  all: try (first [exists 1%nat; reflexivity | exists 2%nat; reflexivity
                  | exists 3%nat; reflexivity | exists 4%nat; reflexivity]).
  all: crunch; try (exfalso; lia).
Qed.

(** The wrappers that only read their Java arrays ([constructCell],
    [uncompactCellsSize], [cellsToLinkedMultiPolygon], [maxPolygonToCellsSize]
    and its experimental variant) leave every Java array unchanged. *)
Theorem input_arrays_unchanged h3 alloc_fails s :
  (forall res baseCell digits r s',
     Java_com_uber_h3core_NativeMethods_constructCell h3 alloc_fails res baseCell digits s =
       Done r s' -> arrays s' = arrays s) /\
  (forall h3a res r s',
     Java_com_uber_h3core_NativeMethods_uncompactCellsSize h3 alloc_fails h3a res s =
       Done r s' -> arrays s' = arrays s) /\
  (forall h3a results s',
     Java_com_uber_h3core_NativeMethods_cellsToLinkedMultiPolygon h3 alloc_fails h3a results s =
       Done tt s' -> arrays s' = arrays s) /\
  (forall verts holeSizes holeVerts res flags r s',
     Java_com_uber_h3core_NativeMethods_maxPolygonToCellsSize h3 alloc_fails
       verts holeSizes holeVerts res flags s = Done r s' -> arrays s' = arrays s) /\
  (forall verts holeSizes holeVerts res flags r s',
     Java_com_uber_h3core_NativeMethods_maxPolygonToCellsSizeExperimental h3 alloc_fails
       verts holeSizes holeVerts res flags s = Done r s' -> arrays s' = arrays s).
Proof.
  destruct s as [a o b p n c]; cbn [arrays].
  repeat split; intros *; intros H; run_in H; use_mem; crunch; try (exfalso; lia); try congruence.
  all: injection H; intros; subst; cbn.
  all: rewrite ?replace_nth_same by assumption; try reflexivity.
Qed.

Lemma load_whole (l : list jval) : firstn (Z.to_nat (Z.of_nat (length l))) (skipn (Z.to_nat 0) l) = l.
Proof. rewrite Nat2Z.id; apply firstn_all. Qed.

Lemma nth_error_app_len0 {A} (l r : list A) : nth_error (l ++ r) (length l) = nth_error r 0.
Proof. induction l; cbn; auto. Qed.
Ltac norm_lists :=
  repeat (rewrite <- ?app_assoc in *; cbn [app] in *;
          rewrite ?length_app in *; cbn [length] in *;
          rewrite ?nth_error_app_plus, ?nth_error_app_len0, ?replace_nth_app_r, ?replace_nth_app_r0 in *;
          cbn [nth_error replace_nth] in *).

(** [compactCells] on two distinct arrays that both pin passes the whole input
    to the library, writes its output over the start of the results array,
    releases both buffers and logs one call. *)
Theorem compactCells_writes h3 alloc_fails h3a results s ha ra :
  h3a <> results ->
  nth_error (arrays s) h3a = Some ha -> nth_error (arrays s) results = Some ra ->
  alloc_fails (allocs s) = false -> alloc_fails (S (allocs s)) = false ->
  (length (snd (compactCells h3 (map jz ha))) <= length ra)%nat ->
  exists s', Java_com_uber_h3core_NativeMethods_compactCells h3 alloc_fails h3a results s = Done tt s' /\
    arrays s' = replace_nth (arrays s) results
      (map JLong (snd (compactCells h3 (map jz ha))) ++
       skipn (length (snd (compactCells h3 (map jz ha)))) ra) /\
    buffers s' = buffers s ++ [None; None] /\
    calls s' = calls s ++ [Called "compactCells" None (fst (compactCells h3 (map jz ha)))] /\
    (is_err (fst (compactCells h3 (map jz ha))) = false -> pending s' = pending s).
Proof.
  destruct s as [a o b p n c]; cbn [arrays allocs buffers calls pending].
  intros Hne Hh Hr Hal1 Hal2.
  destruct (compactCells h3 (map jz ha)) as [e cs] eqn:Ec; cbn [fst snd]; intros Hlen.
  remember (Java_com_uber_h3core_NativeMethods_compactCells h3 alloc_fails h3a results
              (mkJState a o b p n c)) as r eqn:E.
  symmetry in E; run_in E; rewrite ?load_whole in *; norm_lists; crunch; rewrite ?load_whole in *; crunch; try (exfalso; lia); try congruence.
  all: rewrite Ec in *; crunch; rewrite ?length_map in *; unfold H3Index in *; try (exfalso; lia); try congruence.
  all: done_state; cbn; rewrite ?(replace_nth_same _ _ _ Heqo2).
  all: rewrite ?write_at_spec by (rewrite length_map; lia); cbn; rewrite ?length_map.
  all: repeat split; try reflexivity; intros; congruence.
Qed.

(** When [CreateGeoPolygon] fails, its error is [E_MEMORY_ALLOC], an
    [OutOfMemoryError] is pending, every buffer it pinned is released and no
    Java array or call log changed. *)
Theorem CreateGeoPolygon_error_cleanup alloc_fails verts holeSizes holeVerts s e poly s' :
  CreateGeoPolygon alloc_fails verts holeSizes holeVerts s = Done (e, poly) s' ->
  is_err e = true ->
  e = E_MEMORY_ALLOC /\ pending s' = Some ExOOM /\ arrays s' = arrays s /\
  calls s' = calls s /\ exists k, buffers s' = buffers s ++ repeat None k.
Proof.
  intros H He; destruct s as [a o b p n c]; cbn [buffers arrays calls pending].
  run_in H; crunch; try (exfalso; lia); try congruence; try discriminate He.
  all: injection H; intros; subst; cbn.
  all: try (match goal with Hx : is_err E_SUCCESS = true |- _ => discriminate Hx end).
  all: rewrite ?replace_nth_length, ?length_app; cbn [length app].
  all: rewrite <- ?app_assoc, <- ?Nat.add_assoc; cbn [app Nat.add].
  all: repeat (first [rewrite replace_nth_app_r0 | rewrite replace_nth_app_r
                      | rewrite <- app_assoc]; cbn [replace_nth app]).
  all: rewrite ?replace_nth_same by assumption.
  all: repeat split; try reflexivity.
  all: try (exists 0%nat; symmetry; apply app_nil_r).
  all: try (first [exists 1%nat; reflexivity | exists 2%nat; reflexivity
                  | exists 3%nat; reflexivity]).
Qed.

(** [maxPolygonToCellsSize] (and its experimental variant) either returns -1
    with an [OutOfMemoryError] pending and no library call, or makes exactly
    one library call and returns what the library wrote. *)
Theorem maxPolygonToCellsSize_outcome h3 alloc_fails verts holeSizes holeVerts res flags s :
  (forall r s',
    Java_com_uber_h3core_NativeMethods_maxPolygonToCellsSize h3 alloc_fails
      verts holeSizes holeVerts res flags s = Done r s' ->
    (r = Some (-1) /\ calls s' = calls s /\ pending s' = Some ExOOM) \/
    (exists poly, calls s' = calls s ++
       [Called "maxPolygonToCellsSize" None (fst (maxPolygonToCellsSize h3 poly res flags))] /\
       r = snd (maxPolygonToCellsSize h3 poly res flags))) /\
  (forall r s',
    Java_com_uber_h3core_NativeMethods_maxPolygonToCellsSizeExperimental h3 alloc_fails
      verts holeSizes holeVerts res flags s = Done r s' ->
    (r = Some (-1) /\ calls s' = calls s /\ pending s' = Some ExOOM) \/
    (exists poly, calls s' = calls s ++
       [Called "maxPolygonToCellsSizeExperimental" None
          (fst (maxPolygonToCellsSizeExperimental h3 poly res flags))] /\
       r = snd (maxPolygonToCellsSizeExperimental h3 poly res flags))).
Proof.
  destruct s as [a o b p n c]; cbn [calls pending].
  split; intros r s' H; run_in H; crunch; try (exfalso; lia); try congruence.
  all: try (match goal with Hx : is_err E_SUCCESS = true |- _ => discriminate Hx end).
  all: injection H; intros; subst; cbn.
  all: try (left; repeat split; reflexivity).
  all: right; match goal with Hp : _ _ ?q _ _ = (_, _) |- _ => exists q; rewrite Hp end.
  all: split; reflexivity.
Qed.

(** [uncompactCells] passes the library the whole input array and the length
    of the results array as capacity, and makes at most that one call. *)
Theorem uncompactCells_capacity h3 alloc_fails h3a res results s ha ra u s' :
  nth_error (arrays s) h3a = Some ha -> nth_error (arrays s) results = Some ra ->
  Java_com_uber_h3core_NativeMethods_uncompactCells h3 alloc_fails h3a res results s = Done u s' ->
  calls s' = calls s \/
  calls s' = calls s ++ [Called "uncompactCells" (Some (Z.of_nat (length ra)))
                           (fst (uncompactCells h3 (map jz ha) (Z.of_nat (length ra)) res))].
Proof.
  destruct s as [a o b p n c]; cbn [arrays calls]; intros Hh Hr H.
  run_in H; rewrite ?load_whole in *; norm_lists; crunch; rewrite ?load_whole in *; crunch;
    try (exfalso; lia); try congruence.
  all: injection H; intros; subst; cbn.
  all: try (left; reflexivity).
  all: right.
  all: match goal with Hp : uncompactCells _ _ _ _ = _ |- _ => rewrite Hp; reflexivity end.
Qed.


(** When the first allocation (pinning the first array) fails, the array
    wrappers make no library call, change no array or buffer and return with
    an [OutOfMemoryError] pending; [constructCell] and [uncompactCellsSize]
    then return 0. *)
Theorem first_pin_failure h3 alloc_fails s :
  alloc_fails (allocs s) = true ->
  (forall fn results r u s', fill_call alloc_fails fn results r s = Done u s' ->
     oom_without_call s s') /\
  (forall fn min results r u s', checked_fill_call alloc_fails fn min results r s = Done u s' ->
     oom_without_call s s') /\
  (forall res bc digits r s',
     Java_com_uber_h3core_NativeMethods_constructCell h3 alloc_fails res bc digits s = Done r s' ->
     r = Some 0 /\ oom_without_call s s') /\
  (forall h3a res r s',
     Java_com_uber_h3core_NativeMethods_uncompactCellsSize h3 alloc_fails h3a res s = Done r s' ->
     r = Some 0 /\ oom_without_call s s') /\
  (forall h3a results u s',
     Java_com_uber_h3core_NativeMethods_compactCells h3 alloc_fails h3a results s = Done u s' ->
     oom_without_call s s') /\
  (forall h3a res results u s',
     Java_com_uber_h3core_NativeMethods_uncompactCells h3 alloc_fails h3a res results s = Done u s' ->
     oom_without_call s s') /\
  (forall h3a results u s',
     Java_com_uber_h3core_NativeMethods_cellsToLinkedMultiPolygon h3 alloc_fails h3a results s =
       Done u s' -> oom_without_call s s') /\
  (forall h vertexes u s',
     Java_com_uber_h3core_NativeMethods_cellToVertexes h3 alloc_fails h vertexes s = Done u s' ->
     oom_without_call s s') /\
  (forall verts holeSizes holeVerts res flags results u s',
     Java_com_uber_h3core_NativeMethods_polygonToCells h3 alloc_fails
       verts holeSizes holeVerts res flags results s = Done u s' ->
     oom_without_call s s') /\
  (forall verts holeSizes holeVerts res flags results u s',
     Java_com_uber_h3core_NativeMethods_polygonToCellsExperimental h3 alloc_fails
       verts holeSizes holeVerts res flags results s = Done u s' ->
     oom_without_call s s').
Proof.
  destruct s as [a o b p n c]; cbn [allocs]; intros H0.
  unfold oom_without_call; cbn [calls arrays buffers pending].
  repeat match goal with |- _ /\ _ => split end; intros * Hrun; run_in Hrun; crunch; try (exfalso; lia); try congruence.
  all: injection Hrun; intros; subst; cbn; repeat split; reflexivity.
Qed.

(** [gridDiskDistances] on two distinct arrays that both pin writes the cells
    and the distances over the start of the two arrays, releases both buffers
    and logs one call. *)
Theorem gridDiskDistances_writes h3 alloc_fails h k results distances s ra da :
  results <> distances ->
  nth_error (arrays s) results = Some ra -> nth_error (arrays s) distances = Some da ->
  alloc_fails (allocs s) = false -> alloc_fails (S (allocs s)) = false ->
  (length (fst (snd (gridDiskDistances h3 h k))) <= length ra)%nat ->
  (length (snd (snd (gridDiskDistances h3 h k))) <= length da)%nat ->
  exists s', Java_com_uber_h3core_NativeMethods_gridDiskDistances h3 alloc_fails h k
               results distances s = Done tt s' /\
    arrays s' = replace_nth (replace_nth (arrays s) results
                  (map JLong (fst (snd (gridDiskDistances h3 h k))) ++
                   skipn (length (fst (snd (gridDiskDistances h3 h k)))) ra)) distances
                  (map JInt (snd (snd (gridDiskDistances h3 h k))) ++
                   skipn (length (snd (snd (gridDiskDistances h3 h k)))) da) /\
    buffers s' = buffers s ++ [None; None] /\
    calls s' = calls s ++ [Called "gridDiskDistances" None (fst (gridDiskDistances h3 h k))] /\
    (is_err (fst (gridDiskDistances h3 h k)) = false -> pending s' = pending s).
Proof.
  destruct s as [a o b p n c]; cbn [arrays allocs buffers calls pending].
  intros Hne Hr Hd Hal1 Hal2.
  destruct (gridDiskDistances h3 h k) as [e [cs ds]] eqn:Eg; cbn [fst snd]; intros Hl1 Hl2.
  remember (Java_com_uber_h3core_NativeMethods_gridDiskDistances h3 alloc_fails h k results distances
              (mkJState a o b p n c)) as r eqn:E.
  symmetry in E; run_in E; norm_lists; rewrite ?Eg in *; crunch; rewrite ?length_map in *;
    unfold H3Index in *; try (exfalso; lia); try congruence.
  all: done_state; cbn.
  all: rewrite ?write_at_spec by (rewrite ?replace_nth_length, length_map; lia); cbn; rewrite ?length_map.
  all: repeat split; try reflexivity; intros; try congruence.
Qed.

(** [cellToVertexes] with an array of at least 6 elements that pins writes the
    vertexes over the start of the array, releases the buffer and logs one
    call. *)
Theorem cellToVertexes_writes h3 alloc_fails h vertexes s arr :
  nth_error (arrays s) vertexes = Some arr ->
  alloc_fails (allocs s) = false ->
  (6 <= length arr)%nat ->
  (length (snd (cellToVertexes h3 h)) <= length arr)%nat ->
  exists s', Java_com_uber_h3core_NativeMethods_cellToVertexes h3 alloc_fails h vertexes s = Done tt s' /\
    arrays s' = replace_nth (arrays s) vertexes
      (map JLong (snd (cellToVertexes h3 h)) ++ skipn (length (snd (cellToVertexes h3 h))) arr) /\
    buffers s' = buffers s ++ [None] /\
    calls s' = calls s ++ [Called "cellToVertexes" None (fst (cellToVertexes h3 h))] /\
    (is_err (fst (cellToVertexes h3 h)) = false -> pending s' = pending s).
Proof.
  destruct s as [a o b p n c]; cbn [arrays allocs buffers calls pending].
  intros Ha Hal H6.
  destruct (cellToVertexes h3 h) as [e cs] eqn:Ev; cbn [fst snd]; intros Hl.
  remember (Java_com_uber_h3core_NativeMethods_cellToVertexes h3 alloc_fails h vertexes
              (mkJState a o b p n c)) as r eqn:E.
  symmetry in E; run_in E; norm_lists; rewrite ?Ev in *; crunch; rewrite ?length_map in *;
    unfold H3Index in *; try (exfalso; lia); try congruence.
  all: done_state; cbn.
  all: rewrite ?write_at_spec by (rewrite ?replace_nth_length, length_map; lia); cbn; rewrite ?length_map.
  all: repeat split; try reflexivity; intros; try congruence.
Qed.

(** ** Polygons read back *)

Lemma replace_nth_app_l {A} (l r : list A) n y :
  (n < length l)%nat -> replace_nth (l ++ r) n y = replace_nth l n y ++ r.
Proof. revert n; induction l; intros [|n] H; cbn in *; try lia; auto. f_equal; apply IHl; lia. Qed.

Lemma nth_error_app_l {A} (l r : list A) n : (n < length l)%nat -> nth_error (l ++ r) n = nth_error l n.
Proof. apply nth_error_app1. Qed.

Section NoFailures.
Variable alloc_fails : nat -> bool.
Hypothesis Hnf : forall k, alloc_fails k = false.

Lemma convert_coords_run rl coords : forall a o b n c ys,
  nth_error o rl = Some (OArrayList ys) ->
  convert_coords alloc_fails rl coords (mkJState a o b None n c) =
    Done true (mkJState a (replace_nth o rl (OArrayList (ys ++ seq (length o) (length coords)))
                           ++ map ll_obj coords) b None (n + 2 * length coords) c).
Proof.
  induction coords as [|x coords IH]; intros a o b n c ys Hrl.
  - cbn; rewrite !app_nil_r, (replace_nth_same _ _ _ Hrl), Nat.add_0_r; reflexivity.
  - pose proof (nth_error_some_lt _ _ _ Hrl) as Hlt.
    cbn [convert_coords]; unfold bind, ret, NewObject, ArrayList_add, ExceptionCheck, alloc.
    cbn; rewrite Hnf; cbn; rewrite Hnf; cbn.
    rewrite nth_error_app_l, Hrl by exact Hlt; cbn.
    unfold set_objects, set_allocs; cbn.
    rewrite (IH _ _ _ _ _ (ys ++ [length o])).
    + f_equal. f_equal.
      * rewrite !replace_nth_app_l by (rewrite ?replace_nth_length; exact Hlt); rewrite replace_nth_twice.
        rewrite ?length_app, ?replace_nth_length; cbn.
        rewrite <- !app_assoc; cbn.
        replace (length o + 1)%nat with (S (length o)) by lia; reflexivity.
      * lia.
    + apply nth_error_replace_nth_eq; rewrite length_app; cbn; lia.
Qed.

Lemma convert_loops_run rl ls : forall a o b n c ys,
  nth_error o rl = Some (OArrayList ys) ->
  exists n', convert_loops alloc_fails rl ls (mkJState a o b None n c) =
    Done true (mkJState a (replace_nth o rl (OArrayList (ys ++ fst (loops_layout (length o) ls)))
                           ++ snd (loops_layout (length o) ls)) b None n' c).
Proof.
  induction ls as [|l ls IH]; intros a o b n c ys Hrl.
  - exists n; cbn; rewrite !app_nil_r, (replace_nth_same _ _ _ Hrl); reflexivity.
  - pose proof (nth_error_some_lt _ _ _ Hrl) as Hlt.
    cbn [convert_loops]; unfold bind, ret, NewObject, ArrayList_add, ExceptionCheck, alloc.
    cbn; rewrite Hnf; cbn.
    unfold set_objects, set_allocs; cbn.
    rewrite (convert_coords_run (length o) l a _ b _ c []) by apply nth_error_app_last.
    cbn; rewrite Hnf; cbn.
    rewrite replace_nth_app_last.
    rewrite !nth_error_app_l by (rewrite ?length_app; cbn; lia); rewrite Hrl; cbn.
    unfold set_objects, set_allocs; cbn.
    rewrite length_app; cbn.
    match goal with |- exists n', convert_loops _ _ _ {| objects := ?o2 |} = _ =>
      replace o2 with (replace_nth o rl (OArrayList (ys ++ [length o])) ++
                       (OArrayList (seq (S (length o)) (length l)) :: map ll_obj l))
        by (rewrite <- app_assoc, replace_nth_app_l by exact Hlt; cbn;
            replace (length o + 1)%nat with (S (length o)) by lia; reflexivity) end.
    match goal with |- exists n', convert_loops _ _ _ {| allocs := ?n2 |} = _ =>
      destruct (IH a (replace_nth o rl (OArrayList (ys ++ [length o])) ++
                       (OArrayList (seq (S (length o)) (length l)) :: map ll_obj l))
                   b n2 c (ys ++ [length o])) as [n' Hn'] end.
    { rewrite nth_error_app_l by (rewrite replace_nth_length; exact Hlt).
      apply nth_error_replace_nth_eq; exact Hlt. }
    exists n'; rewrite Hn'; f_equal; f_equal.
    rewrite replace_nth_app_l by (rewrite replace_nth_length; exact Hlt).
    rewrite replace_nth_twice, length_app, replace_nth_length; cbn [length]; rewrite length_map.
    rewrite <- !app_assoc; cbn.
    replace (length o + S (length l))%nat with (length o + S (length l))%nat by lia.
    reflexivity.
Qed.

Lemma convert_polygons_run results ps : forall a o b n c xs,
  nth_error o results = Some (OArrayList xs) ->
  exists n', ConvertLinkedGeoPolygonToManaged alloc_fails ps results (mkJState a o b None n c) =
    Done tt (mkJState a (replace_nth o results
                           (OArrayList (xs ++ fst (polygons_layout (length o) ps)))
                         ++ snd (polygons_layout (length o) ps)) b None n' c).
Proof.
  induction ps as [|p ps IH]; intros a o b n c xs Hr.
  - exists n; cbn; rewrite !app_nil_r, (replace_nth_same _ _ _ Hr); reflexivity.
  - pose proof (nth_error_some_lt _ _ _ Hr) as Hlt.
    cbn [ConvertLinkedGeoPolygonToManaged]; unfold bind, ret, NewObject, alloc.
    cbn; rewrite Hnf; cbn.
    unfold set_objects, set_allocs; cbn.
    destruct p as [|l p].
    + destruct (IH a (o ++ [OArrayList []]) b (S n) c xs) as [n' Hn'].
      { rewrite nth_error_app_l by exact Hlt; exact Hr. }
      exists n'; rewrite Hn'; f_equal; f_equal.
      rewrite replace_nth_app_l by exact Hlt; rewrite length_app; cbn.
      rewrite <- app_assoc; cbn.
      replace (length o + 1)%nat with (S (length o)) by lia; reflexivity.
    + destruct (convert_loops_run (length o) (l :: p) a (o ++ [OArrayList []]) b (S n) c [])
        as [n1 Hn1]; [apply nth_error_app_last|].
      rewrite Hn1; clear Hn1; cbn -[loops_layout].
      rewrite replace_nth_app_last.
      unfold ArrayList_add, ExceptionCheck, alloc, bind, ret; cbn -[loops_layout]; rewrite Hnf;
        cbn -[loops_layout].
      rewrite !nth_error_app_l by (rewrite ?length_app; cbn; lia); rewrite Hr; cbn -[loops_layout].
      unfold set_objects, set_allocs; cbn -[loops_layout].
      match goal with |- exists n', ConvertLinkedGeoPolygonToManaged _ _ _ {| allocs := ?n2 |} = _ =>
        destruct (IH a (replace_nth o results (OArrayList (xs ++ [length o])) ++
                         (OArrayList (fst (loops_layout (S (length o)) (l :: p))) ::
                          snd (loops_layout (S (length o)) (l :: p))))
                     b n2 c (xs ++ [length o])) as [n' Hn'] end.
      { rewrite nth_error_app_l by (rewrite replace_nth_length; exact Hlt).
        apply nth_error_replace_nth_eq; exact Hlt. }
      exists n'.
      match goal with |- ConvertLinkedGeoPolygonToManaged _ _ _ {| objects := ?o2 |} = _ =>
        replace o2 with (replace_nth o results (OArrayList (xs ++ [length o])) ++
                         (OArrayList (fst (loops_layout (S (length o)) (l :: p))) ::
                          snd (loops_layout (S (length o)) (l :: p))))
      end.
      * rewrite Hn'; f_equal; f_equal.
        rewrite replace_nth_app_l by (rewrite replace_nth_length; exact Hlt).
        rewrite replace_nth_twice, length_app, replace_nth_length; cbn [length].
        rewrite <- !app_assoc; cbn [app].
        replace (length o + S (length (snd (loops_layout (S (length o)) (l :: p)))))%nat
          with (S (length o) + length (snd (loops_layout (S (length o)) (l :: p))))%nat by lia.
        reflexivity.
      * rewrite <- app_assoc, replace_nth_app_l by exact Hlt; rewrite length_app; cbn -[loops_layout].
        replace (length o + 1)%nat with (S (length o)) by lia; reflexivity.
Qed.
End NoFailures.

Lemma nth_error_mid {A} (P Q : list A) x : nth_error (P ++ x :: Q) (length P) = Some x.
Proof. induction P; cbn; auto. Qed.

Lemma read_coords_layout l : forall P Q,
  read_coords (P ++ map ll_obj l ++ Q) (seq (length P) (length l)) = Some l.
Proof.
  induction l as [|x l IH]; intros P Q; cbn [map length seq read_coords]; auto.
  rewrite <- app_comm_cons, nth_error_mid.
  replace (P ++ ll_obj x :: map ll_obj l ++ Q) with ((P ++ [ll_obj x]) ++ map ll_obj l ++ Q)
    by (rewrite <- app_assoc; reflexivity).
  replace (S (length P)) with (length (P ++ [ll_obj x])) by (rewrite length_app; cbn; lia).
  rewrite IH; destruct x; reflexivity.
Qed.

Lemma read_loops_layout ls : forall P Q,
  read_loops (P ++ snd (loops_layout (length P) ls) ++ Q) (fst (loops_layout (length P) ls)) = Some ls.
Proof.
  induction ls as [|l ls IH]; intros P Q; cbn [loops_layout fst snd read_loops]; auto.
  rewrite <- app_comm_cons, nth_error_mid.
  replace (P ++ OArrayList (seq (S (length P)) (length l)) :: (map ll_obj l ++ snd (loops_layout (length P + S (length l)) ls)) ++ Q)
    with ((P ++ [OArrayList (seq (S (length P)) (length l))]) ++ map ll_obj l ++ (snd (loops_layout (length P + S (length l)) ls) ++ Q))
    by (rewrite <- !app_assoc; reflexivity).
  set (X := OArrayList (seq (S (length P)) (length l))).
  set (R := snd (loops_layout (length P + S (length l)) ls)).
  pose proof (read_coords_layout l (P ++ [X]) (R ++ Q)) as Hc.
  rewrite length_app in Hc; cbn [length] in Hc.
  replace (length P + 1)%nat with (S (length P)) in Hc by lia.
  rewrite Hc.
  pose proof (IH ((P ++ [X]) ++ map ll_obj l) Q) as Hl.
  rewrite !length_app, length_map in Hl; cbn [length] in Hl.
  replace (length P + 1 + length l)%nat with (length P + S (length l))%nat in Hl by lia.
  rewrite <- !app_assoc in Hl; cbn [app] in Hl.
  rewrite <- !app_assoc; cbn [app].
  fold R in Hl; rewrite Hl; reflexivity.
Qed.

Lemma read_polygons_layout ps : forall P Q,
  read_polygons (P ++ snd (polygons_layout (length P) ps) ++ Q) (fst (polygons_layout (length P) ps)) =
    Some (filter nonempty_polygon ps).
Proof.
  induction ps as [|p ps IH]; intros P Q; [reflexivity|].
  destruct p as [|l p]; cbn [polygons_layout fst snd filter nonempty_polygon].
  - pose proof (IH (P ++ [OArrayList []]) Q) as H.
    rewrite length_app in H; cbn [length] in H.
    replace (length P + 1)%nat with (S (length P)) in H by lia.
    rewrite <- app_assoc in H; exact H.
  - cbn [read_polygons].
    rewrite <- app_comm_cons, nth_error_mid.
    set (X := OArrayList (fst (loops_layout (S (length P)) (l :: p)))).
    set (LR := snd (loops_layout (S (length P)) (l :: p))).
    set (R := snd (polygons_layout (S (length P) + length LR) ps)).
    pose proof (read_loops_layout (l :: p) (P ++ [X]) (R ++ Q)) as Hl.
    rewrite length_app in Hl; cbn [length] in Hl.
    replace (length P + 1)%nat with (S (length P)) in Hl by lia.
    fold LR in Hl; rewrite <- app_assoc in Hl; cbn [app] in Hl.
    rewrite <- app_assoc; rewrite Hl.
    pose proof (IH ((P ++ [X]) ++ LR) Q) as H.
    rewrite !length_app in H; cbn [length] in H.
    replace (length P + 1 + length LR)%nat with (S (length P) + length LR)%nat in H by lia.
    fold R in H; rewrite <- !app_assoc in H; cbn [app] in H.
    rewrite H; reflexivity.
Qed.

(** With no allocation failing, [ConvertLinkedGeoPolygonToManaged] appends
    handles to the [results] list which, read back as Java lists, give exactly
    the non-empty polygons of the input in order, loops and coordinates
    included; no exception is raised and arrays, buffers and the library log
    are untouched. *)
Theorem ConvertLinkedGeoPolygonToManaged_read_back alloc_fails ps results s xs :
  (forall k, alloc_fails k = false) -> pending s = None ->
  nth_error (objects s) results = Some (OArrayList xs) ->
  exists ids s', ConvertLinkedGeoPolygonToManaged alloc_fails ps results s = Done tt s' /\
    nth_error (objects s') results = Some (OArrayList (xs ++ ids)) /\
    read_polygons (objects s') ids = Some (filter nonempty_polygon ps) /\
    pending s' = None /\ arrays s' = arrays s /\ buffers s' = buffers s /\ calls s' = calls s.
Proof.
  destruct s as [a o b p n c]; cbn [pending objects arrays buffers calls]; intros Hnf -> Hr.
  destruct (convert_polygons_run alloc_fails Hnf results ps a o b n c xs Hr) as [n' Hn'].
  exists (fst (polygons_layout (length o) ps)); eexists; split; [exact Hn'|]; cbn.
  pose proof (nth_error_some_lt _ _ _ Hr) as Hlt.
  split; [|split; [|repeat split]].
  - rewrite nth_error_app_l by (rewrite replace_nth_length; exact Hlt).
    apply nth_error_replace_nth_eq; exact Hlt.
  - pose proof (read_polygons_layout ps (replace_nth o results (OArrayList (xs ++ fst (polygons_layout (length o) ps)))) []) as H.
    rewrite replace_nth_length, app_nil_r in H; exact H.
Qed.

(** With no allocation failing and the library succeeding, [cellsToLinkedMultiPolygon]
    appends to [results] the non-empty polygons the library computed, readable back
    as nested Java lists; it raises no exception, leaves the arrays as they were,
    releases its buffer and logs one call. *)
Theorem cellsToLinkedMultiPolygon_read_back h3 alloc_fails h3a results s ha xs :
  (forall k, alloc_fails k = false) -> pending s = None ->
  nth_error (arrays s) h3a = Some ha ->
  nth_error (objects s) results = Some (OArrayList xs) ->
  is_err (fst (cellsToLinkedMultiPolygon h3 (map jz ha))) = false ->
  exists ids s', Java_com_uber_h3core_NativeMethods_cellsToLinkedMultiPolygon h3 alloc_fails h3a results s =
      Done tt s' /\
    nth_error (objects s') results = Some (OArrayList (xs ++ ids)) /\
    read_polygons (objects s') ids =
      Some (filter nonempty_polygon (fst (snd (cellsToLinkedMultiPolygon h3 (map jz ha))) ::
                                     snd (snd (cellsToLinkedMultiPolygon h3 (map jz ha))))) /\
    pending s' = None /\ arrays s' = arrays s /\ buffers s' = buffers s ++ [None] /\
    calls s' = calls s ++ [Called "cellsToLinkedMultiPolygon" None
                             (fst (cellsToLinkedMultiPolygon h3 (map jz ha)))].
Proof.
  destruct s as [a o b p n c]; cbn [pending objects arrays buffers calls]; intros Hnf -> Hh Hr.
  destruct (cellsToLinkedMultiPolygon h3 (map jz ha)) as [e [p0 ps]] eqn:Ec; cbn [fst snd]; intros He.
  remember (Java_com_uber_h3core_NativeMethods_cellsToLinkedMultiPolygon h3 alloc_fails h3a results
              (mkJState a o b None n c)) as r eqn:E.
  symmetry in E; run_in E; rewrite ?Hnf in *; rewrite ?load_whole in *; crunch; try congruence.
  all: rewrite ?load_whole in *; rewrite ?Ec in *; crunch; try congruence.
  all: try match goal with
       | Hc : ConvertLinkedGeoPolygonToManaged _ ?ps ?res
                {| arrays := ?a'; objects := ?o'; buffers := ?b'; pending := None;
                   allocs := ?n'; calls := ?c' |} = _ |- _ =>
           destruct (convert_polygons_run _ Hnf res ps a' o' b' n' c' xs Hr) as [nn Hnn];
           remember (polygons_layout (length o') ps) as L eqn:HL;
           rewrite Hnn in Hc; try discriminate Hc; injection Hc; clear Hc; intros; subst
       end.
  all: crunch; cbn -[polygons_layout loops_layout] in *; crunch; try congruence.
  all: try (
    pose proof (nth_error_some_lt _ _ _ Hr) as Hlt;
    eexists; eexists; split; [reflexivity|];
    try rename arrays into arrs;
    cbn [objects arrays buffers pending calls];
    rewrite nth_error_app_l by (rewrite replace_nth_length; exact Hlt);
    rewrite nth_error_replace_nth_eq by exact Hlt;
    split; [reflexivity|];
    split; [pose proof (read_polygons_layout (l1 :: l2) (replace_nth o results
               (OArrayList (xs ++ fst (polygons_layout (length o) (l1 :: l2))))) []) as Hrp;
            rewrite replace_nth_length, app_nil_r in Hrp; exact Hrp|];
    rewrite replace_nth_app_last, replace_nth_same by assumption;
    repeat split; reflexivity).
  all: exfalso; lia.
Qed.

(** ** Concrete runs *)

(** Claim C1, counterexample: [latLngToCell] fails with [E_RES_DOMAIN] while
    the JVM cannot allocate the [H3Exception]; the call returns with the JVM's
    [OutOfMemoryError] pending and no [H3Exception]. *)
Lemma latLngToCell_exception_not_allocated :
  run_op (stub_lib E_RES_DOMAIN [] hexagon (mkLatLng 3 4)) all_fail (OlatLngToCell 0 0 16)
    (entry_state []) =
  Done tt (mkJState [] [] [] (Some ExOOM) 1 [Called "latLngToCell" None E_RES_DOMAIN]).
Proof. vm_compute. reflexivity. Qed.

(** Claim C1, witness: [latLngToCell] failing with [E_RES_DOMAIN]. *)
Lemma binding_error_translation_witness :
  exists s', pending (entry_state []) = None /\
    run_op (stub_lib E_RES_DOMAIN [] hexagon (mkLatLng 3 4)) no_failures
      (OlatLngToCell 0 0 16) (entry_state []) = Done tt s' /\
    exists new, calls s' = calls (entry_state []) ++ new /\ (length new <= 1)%nat /\
      (forall ev, In ev new -> is_err (ev_err ev) = true ->
         pending s' = Some (ExH3 (ev_err ev)) \/
         (pending s' = Some ExOOM /\ last_alloc_failed no_failures (entry_state []) s')) /\
      (forall e, pending s' = Some (ExH3 e) ->
         exists ev, In ev new /\ ev_err ev = e /\ is_err e = true).
Proof.
  eexists; split; [reflexivity|]; split; [vm_compute; reflexivity|].
  apply (binding_error_translation (stub_lib E_RES_DOMAIN [] hexagon (mkLatLng 3 4)) no_failures
           (OlatLngToCell 0 0 16) (entry_state []) tt); [reflexivity | vm_compute; reflexivity].
Defined.



(** Claim C3: a successful [cellToBoundary] of a hexagon into a one-element
    array stores at index 1 of the one-element buffer, and a successful
    [directedEdgeToBoundary] into a three-element array stores at index 3: the
    loops test [i < sz] but write [i + 1]. *)
Theorem boundary_loop_odd_size_overflow :
  run_op (stub_lib E_SUCCESS [] hexagon (mkLatLng 3 4)) no_failures (OcellToBoundary 7 0)
    (entry_state [doubles 1]) = Crash (OutOfBounds 0%nat 1) /\
  run_op (stub_lib E_SUCCESS [] hexagon (mkLatLng 3 4)) no_failures (OdirectedEdgeToBoundary 7 0)
    (entry_state [doubles 3]) = Crash (OutOfBounds 0%nat 3).
Proof. split; vm_compute; reflexivity. Qed.

(** Claim C4, witness: a four-vertex polygon with two holes and a
    five-element results array, three cells found. *)
Lemma polygon_fill_capacity_witness :
  exists s',
    Java_com_uber_h3core_NativeMethods_polygonToCellsExperimental
      (stub_lib E_SUCCESS [1; 2; 3] hexagon (mkLatLng 3 4)) no_failures 0 1 2 0 0 3
      (entry_state [doubles 8; [JInt 6; JInt 8]; doubles 14; longs0 5]) = Done tt s' /\
    ((Java_com_uber_h3core_NativeMethods_polygonToCellsExperimental
        (stub_lib E_SUCCESS [1; 2; 3] hexagon (mkLatLng 3 4)) no_failures 0 1 2 0 0 3
        (entry_state [doubles 8; [JInt 6; JInt 8]; doubles 14; longs0 5]) = Done tt s' ->
      calls s' = [] \/
      exists poly e,
        e = fst (polygonToCellsExperimental (stub_lib E_SUCCESS [1; 2; 3] hexagon (mkLatLng 3 4))
                   poly 0 0 (Z.of_nat (length (longs0 5)))) /\
        calls s' = [] ++
          [Called "polygonToCellsExperimental" (Some (Z.of_nat (length (longs0 5)))) e] /\
        (is_err e = true ->
         pending s' = Some (ExH3 e) \/
         (pending s' = Some ExOOM /\ some_alloc_failed no_failures))) /\
     (Java_com_uber_h3core_NativeMethods_polygonToCells
        (stub_lib E_SUCCESS [1; 2; 3] hexagon (mkLatLng 3 4)) no_failures 0 1 2 0 0 3
        (entry_state [doubles 8; [JInt 6; JInt 8]; doubles 14; longs0 5]) = Done tt s' ->
      calls s' = [] \/
      exists poly e,
        e = fst (polygonToCells (stub_lib E_SUCCESS [1; 2; 3] hexagon (mkLatLng 3 4)) poly 0 0) /\
        calls s' = [] ++ [Called "polygonToCells" None e])).
Proof.
  eexists; split; [vm_compute; reflexivity|].
  apply (polygon_fill_capacity (stub_lib E_SUCCESS [1; 2; 3] hexagon (mkLatLng 3 4)) no_failures
           0 1 2 0 0 3 (entry_state [doubles 8; [JInt 6; JInt 8]; doubles 14; longs0 5])
           (longs0 5) tt); reflexivity.
Defined.

(** Claim C5, counterexample: a successful [cellToBoundary] of a hexagon into
    a two-element array returns 6 with only the first vertex written. *)
Lemma cellToBoundary_short_array_count :
  Java_com_uber_h3core_NativeMethods_cellToBoundary
    (stub_lib E_SUCCESS [] hexagon (mkLatLng 3 4)) no_failures 7 0 (entry_state [doubles 2]) =
  Done 6 (mkJState [[JDouble 1; JDouble 101]] [] [None] None 1
            [Called "cellToBoundary" None E_SUCCESS]).
Proof. vm_compute. reflexivity. Qed.

(** Claim C5, witness: a hexagon into a twenty-element array. *)
Lemma cellToBoundary_result_witness :
  exists s',
    Java_com_uber_h3core_NativeMethods_cellToBoundary
      (stub_lib E_SUCCESS [] hexagon (mkLatLng 3 4)) no_failures 7 0 (entry_state [doubles 20]) =
      Done 6 s' /\
    (is_err E_SUCCESS = true -> 6 = -1) /\
    (is_err E_SUCCESS = false -> no_failures 0 = true -> 6 = -1) /\
    (is_err E_SUCCESS = false -> no_failures 0 = false -> cb_wf hexagon ->
     6 = cb_numVerts hexagon /\ 0 <= 6 <= 10 /\
     exists arr arr', nth_error [doubles 20] 0 = Some arr /\
       nth_error (arrays s') 0 = Some arr' /\ length arr' = length arr /\
       forall k v, Z.of_nat k < 6 -> (2 * k + 1 < length arr)%nat ->
         nth_error (cb_verts hexagon) k = Some v ->
         nth_error arr' (2 * k) = Some (JDouble (lat v)) /\
         nth_error arr' (2 * k + 1) = Some (JDouble (lng v))).
Proof.
  eexists; split; [vm_compute; reflexivity|].
  apply (cellToBoundary_result (stub_lib E_SUCCESS [] hexagon (mkLatLng 3 4)) no_failures 7 0
           (entry_state [doubles 20])); vm_compute; reflexivity.
Defined.

(** Claim C6, witness: four outer vertices and holes of three and four
    vertices. *)
Lemma CreateGeoPolygon_layout_witness :
  exists polygon s',
    CreateGeoPolygon no_failures 0 1 2 (entry_state [doubles 8; [JInt 6; JInt 8]; doubles 14]) =
      Done (E_SUCCESS, polygon) s' /\
    arrays s' = [doubles 8; [JInt 6; JInt 8]; doubles 14] /\
    (exists bv, gl_verts (geoloop polygon) = PBuf bv 0 /\
       nth_error (buffers s') bv = Some (Some (mkBuffer 0 (doubles 8)))) /\
    gl_numVerts (geoloop polygon) = Z.quot (Z.of_nat (length (doubles 8))) 2 /\
    numHoles polygon = Z.of_nat (length [JInt 6; JInt 8]) /\
    ([JInt 6; JInt 8] <> [] -> exists bh hva,
       nth_error [doubles 8; [JInt 6; JInt 8]; doubles 14] 2 = Some hva /\
       nth_error (buffers s') bh = Some (Some (mkBuffer 2 hva)) /\
       length (holes polygon) = length [JInt 6; JInt 8] /\
       forall i sz, nth_error (map jz [JInt 6; JInt 8]) i = Some sz ->
         nth_error (holes polygon) i =
           Some (mkGeoLoop (Z.quot sz 2) (PBuf bh (hole_offset (map jz [JInt 6; JInt 8]) i)))) /\
    (forall s'', DestroyGeoPolygon 0 1 2 polygon s' = Done tt s'' ->
       arrays s'' = [doubles 8; [JInt 6; JInt 8]; doubles 14]).
Proof.
  do 2 eexists; split; [vm_compute; reflexivity|].
  apply (CreateGeoPolygon_layout no_failures 0 1 2
           (entry_state [doubles 8; [JInt 6; JInt 8]; doubles 14])
           (doubles 8) [JInt 6; JInt 8] E_SUCCESS); reflexivity.
Defined.

(** Claim C7, witness: a five-element array for both calls. *)
Lemma res0_pentagons_capacity_checked_witness :
  (Z.of_nat (length (longs0 5)) < res0CellCount (stub_lib E_SUCCESS [] hexagon (mkLatLng 3 4)) ->
   exists s', Java_com_uber_h3core_NativeMethods_getRes0Cells
                (stub_lib E_SUCCESS [] hexagon (mkLatLng 3 4)) no_failures 0
                (entry_state [longs0 5]) = Done tt s' /\
     calls s' = [] /\ arrays s' = [longs0 5] /\ buffers s' = [] /\ pending s' = Some ExOOM) /\
  (Z.of_nat (length (longs0 5)) < pentagonCount (stub_lib E_SUCCESS [] hexagon (mkLatLng 3 4)) ->
   exists s', Java_com_uber_h3core_NativeMethods_getPentagons
                (stub_lib E_SUCCESS [] hexagon (mkLatLng 3 4)) no_failures 2 0
                (entry_state [longs0 5]) = Done tt s' /\
     calls s' = [] /\ arrays s' = [longs0 5] /\ buffers s' = [] /\ pending s' = Some ExOOM).
Proof.
  apply (res0_pentagons_capacity_checked (stub_lib E_SUCCESS [] hexagon (mkLatLng 3 4))
           no_failures 2 0 (entry_state [longs0 5]) (longs0 5)); reflexivity.
Defined.

(** Claim C9, witness: each of the three calls failing with [E_RES_DOMAIN]. *)
Lemma zero_result_on_native_error_witness :
  (exists r s', Java_com_uber_h3core_NativeMethods_cellToChildPos
                  (stub_lib E_RES_DOMAIN [] hexagon (mkLatLng 3 4)) no_failures 7 3
                  (entry_state []) = Done r s' /\ r = Some 0) /\
  (exists r s', Java_com_uber_h3core_NativeMethods_childPosToCell
                  (stub_lib E_RES_DOMAIN [] hexagon (mkLatLng 3 4)) no_failures 5 7 9
                  (entry_state []) = Done r s' /\ r = Some 0) /\
  (exists r s', Java_com_uber_h3core_NativeMethods_constructCell
                  (stub_lib E_RES_DOMAIN [] hexagon (mkLatLng 3 4)) no_failures 0 0 0
                  (entry_state [longs0 0]) = Done r s' /\
     calls s' = [] ++ [Called "constructCell" None E_RES_DOMAIN] /\ r = Some 0).
Proof.
  destruct (zero_result_on_native_error (stub_lib E_RES_DOMAIN [] hexagon (mkLatLng 3 4))
              no_failures) as (P1 & P2 & P3).
  split; [|split].
  - do 2 eexists; split; [vm_compute; reflexivity|].
    eapply (P1 7 3 (entry_state [])); [reflexivity | vm_compute; reflexivity].
  - do 2 eexists; split; [vm_compute; reflexivity|].
    eapply (P2 5 7 9 (entry_state [])); [reflexivity | vm_compute; reflexivity].
  - do 2 eexists; split; [vm_compute; reflexivity|]; split; [reflexivity|].
    eapply (P3 0 0 0%nat (entry_state [longs0 0]) _ _ E_RES_DOMAIN);
      [intros ds _; reflexivity | vm_compute; reflexivity | reflexivity | reflexivity].
Defined.

(** Claim C10, witness: the three conversions failing with
    [E_CELL_INVALID]. *)
Lemma conversion_error_leaves_output_witness :
  let lib := stub_lib E_CELL_INVALID [] hexagon (mkLatLng 3 4) in
  (exists s', Java_com_uber_h3core_NativeMethods_cellToLatLng lib no_failures 7 0
                (entry_state [doubles 2]) = Done tt s' /\
     arrays s' = [doubles 2] /\ buffers s' = [] /\ pending s' <> None) /\
  (exists s', Java_com_uber_h3core_NativeMethods_vertexToLatLng lib no_failures 7 0
                (entry_state [doubles 2]) = Done tt s' /\
     arrays s' = [doubles 2] /\ buffers s' = [] /\ pending s' <> None) /\
  (exists s', Java_com_uber_h3core_NativeMethods_cellToLocalIj lib no_failures 5 7 0
                (entry_state [doubles 2]) = Done tt s' /\
     arrays s' = [doubles 2] /\ buffers s' = [] /\ pending s' <> None).
Proof.
  intros lib.
  destruct (conversion_error_leaves_output lib no_failures 7 5 0 (entry_state [doubles 2]))
    as (P1 & P2 & P3).
  split; [exact (P1 eq_refl) | split; [exact (P2 eq_refl) | exact (P3 eq_refl)]].
Defined.

(** Claim C8: [cellToVertexes] with a five-element array returns with the
    buffer it pinned still live, and [gridDiskDistances] whose second pin
    fails releases the null pointer (and never releases the first pin). *)
Theorem pinned_buffer_not_released :
  run_op (stub_lib E_SUCCESS [] hexagon (mkLatLng 3 4)) no_failures (OcellToVertexes 7 0)
    (entry_state [longs0 5]) =
  Done tt (mkJState [longs0 5] [OThrowable ExOOM] [Some (mkBuffer 0 (longs0 5))]
             (Some ExOOM) 2 []) /\
  run_op (stub_lib E_SUCCESS [1; 2; 3] hexagon (mkLatLng 3 4)) (fun k => Nat.eqb k 1)
    (OgridDiskDistances 7 1 0 1) (entry_state [longs0 3; doubles 3]) = Crash BadRelease.
Proof. split; vm_compute; reflexivity. Qed.

(** Witness: [gridDisk] filling two cells into a three-element array. *)
Lemma fill_call_writes_witness :
  exists s', fill_call no_failures "gridDisk" 0 (longs (E_SUCCESS, [1; 2])) (entry_state [longs0 3]) =
      Done tt s' /\
    arrays s' = [[JLong 1; JLong 2; JLong 0]] /\ buffers s' = [None] /\
    calls s' = [Called "gridDisk" None E_SUCCESS] /\ pending s' = None.
Proof.
  apply (fill_call_writes no_failures "gridDisk" 0 (longs (E_SUCCESS, [1; 2]))
           (entry_state [longs0 3]) (longs0 3)); vm_compute; first [reflexivity | lia].
Defined.

(** Witness: [directedEdgeToCells] with a one-element array, then with a
    two-element array that pins. *)
Lemma checked_fill_call_outcome_witness :
  (exists s', checked_fill_call no_failures "directedEdgeToCells" 2 0 (longs (E_SUCCESS, [1; 2]))
                (entry_state [longs0 1]) = Done tt s' /\
     arrays s' = [longs0 1] /\ calls s' = [] /\ pending s' = Some ExOOM /\ buffers s' = [None]) /\
  (exists s', checked_fill_call no_failures "directedEdgeToCells" 2 0 (longs (E_SUCCESS, [1; 2]))
                (entry_state [longs0 2]) = Done tt s' /\
     arrays s' = [[JLong 1; JLong 2]] /\ buffers s' = [None] /\
     calls s' = [Called "directedEdgeToCells" None E_SUCCESS] /\ pending s' = None).
Proof.
  split.
  - apply (proj1 (checked_fill_call_outcome no_failures "directedEdgeToCells" 2 0
                    (longs (E_SUCCESS, [1; 2])) (entry_state [longs0 1]) (longs0 1) eq_refl));
      reflexivity.
  - apply (proj2 (checked_fill_call_outcome no_failures "directedEdgeToCells" 2 0
                    (longs (E_SUCCESS, [1; 2])) (entry_state [longs0 2]) (longs0 2) eq_refl));
      vm_compute; first [reflexivity | discriminate | lia].
Defined.

(** Witness: the three coordinate writers on a three-element array. *)
Lemma coords_written_witness :
  (is_err E_SUCCESS = false ->
   exists s', Java_com_uber_h3core_NativeMethods_cellToLatLng
                (stub_lib E_SUCCESS [] hexagon (mkLatLng 3 4)) no_failures 7 0 (entry_state [doubles 3]) =
                Done tt s' /\
     arrays s' = [[JDouble 3; JDouble 4; JDouble 0]] /\ buffers s' = [None] /\ pending s' = None /\
     calls s' = [Called "cellToLatLng" None E_SUCCESS]) /\
  (is_err E_SUCCESS = false ->
   exists s', Java_com_uber_h3core_NativeMethods_vertexToLatLng
                (stub_lib E_SUCCESS [] hexagon (mkLatLng 3 4)) no_failures 7 0 (entry_state [doubles 3]) =
                Done tt s' /\
     arrays s' = [[JDouble 3; JDouble 4; JDouble 0]] /\ buffers s' = [None] /\ pending s' = None /\
     calls s' = [Called "vertexToLatLng" None E_SUCCESS]) /\
  (is_err E_SUCCESS = false ->
   exists s', Java_com_uber_h3core_NativeMethods_cellToLocalIj
                (stub_lib E_SUCCESS [] hexagon (mkLatLng 3 4)) no_failures 5 7 0 (entry_state [doubles 3]) =
                Done tt s' /\
     arrays s' = [[JInt 1; JInt 2; JDouble 0]] /\ buffers s' = [None] /\ pending s' = None /\
     calls s' = [Called "cellToLocalIj" None E_SUCCESS]).
Proof.
  apply (coords_written (stub_lib E_SUCCESS [] hexagon (mkLatLng 3 4)) no_failures 7 5 0
           (entry_state [doubles 3]) (doubles 3)); vm_compute; first [reflexivity | lia].
Defined.

(** Witness: a [compactCells] run on two arrays. *)
Lemma pinned_buffers_released_witness :
  exists u s', run_op (stub_lib E_SUCCESS [1; 2] hexagon (mkLatLng 3 4)) no_failures (OcompactCells 0 1)
                 (entry_state [longs0 2; longs0 3]) = Done u s' /\
    exists k, buffers s' = [] ++ repeat None k.
Proof.
  do 2 eexists; split; [vm_compute; reflexivity|].
  eapply (pinned_buffers_released (stub_lib E_SUCCESS [1; 2] hexagon (mkLatLng 3 4)) no_failures
            (OcompactCells 0 1) (entry_state [longs0 2; longs0 3])).
  - intros h v Hc; discriminate Hc.
  - vm_compute; reflexivity.
Defined.

(** Witness: two cells compacted into a three-element array. *)
Lemma compactCells_writes_witness :
  exists s', Java_com_uber_h3core_NativeMethods_compactCells
               (stub_lib E_SUCCESS [1; 2] hexagon (mkLatLng 3 4)) no_failures 0 1
               (entry_state [longs0 2; longs0 3]) = Done tt s' /\
    arrays s' = [longs0 2; [JLong 1; JLong 2; JLong 0]] /\ buffers s' = [None; None] /\
    calls s' = [Called "compactCells" None E_SUCCESS] /\ (is_err E_SUCCESS = false -> pending s' = None).
Proof.
  apply (compactCells_writes (stub_lib E_SUCCESS [1; 2] hexagon (mkLatLng 3 4)) no_failures 0 1
           (entry_state [longs0 2; longs0 3]) (longs0 2) (longs0 3)); vm_compute; first [reflexivity | lia | discriminate].
Defined.

(** Witness: the [calloc] of the holes fails after [verts] was pinned. *)
Lemma CreateGeoPolygon_error_cleanup_witness :
  exists poly s', CreateGeoPolygon (fun k => Nat.eqb k 1) 0 1 2
                    (entry_state [doubles 8; [JInt 6]; doubles 6]) = Done (E_MEMORY_ALLOC, poly) s' /\
    E_MEMORY_ALLOC = E_MEMORY_ALLOC /\ pending s' = Some ExOOM /\
    arrays s' = [doubles 8; [JInt 6]; doubles 6] /\ calls s' = [] /\
    exists k, buffers s' = [] ++ repeat None k.
Proof.
  do 2 eexists; split; [vm_compute; reflexivity|].
  eapply (CreateGeoPolygon_error_cleanup (fun k => Nat.eqb k 1) 0 1 2
            (entry_state [doubles 8; [JInt 6]; doubles 6])); [vm_compute; reflexivity | reflexivity].
Defined.

(** Witness: one cell uncompacted into a four-element array. *)
Lemma uncompactCells_capacity_witness :
  exists u s', Java_com_uber_h3core_NativeMethods_uncompactCells
                 (stub_lib E_SUCCESS [1; 2] hexagon (mkLatLng 3 4)) no_failures 0 5 1
                 (entry_state [longs0 1; longs0 4]) = Done u s' /\
    (calls s' = [] \/
     calls s' = [] ++ [Called "uncompactCells" (Some 4)
                         (fst (uncompactCells (stub_lib E_SUCCESS [1; 2] hexagon (mkLatLng 3 4))
                                 [0] 4 5))]).
Proof.
  do 2 eexists; split; [vm_compute; reflexivity|].
  eapply (uncompactCells_capacity (stub_lib E_SUCCESS [1; 2] hexagon (mkLatLng 3 4)) no_failures
            0 5 1 (entry_state [longs0 1; longs0 4]) (longs0 1) (longs0 4));
    vm_compute; reflexivity.
Defined.

(** Witness: no allocation succeeds. *)
Lemma first_pin_failure_witness :
  (forall fn results r u s', fill_call all_fail fn results r (entry_state [longs0 3]) = Done u s' ->
     oom_without_call (entry_state [longs0 3]) s') /\
  (forall fn min results r u s',
     checked_fill_call all_fail fn min results r (entry_state [longs0 3]) = Done u s' ->
     oom_without_call (entry_state [longs0 3]) s') /\
  (forall res bc digits r s',
     Java_com_uber_h3core_NativeMethods_constructCell (stub_lib E_SUCCESS [] hexagon (mkLatLng 3 4))
       all_fail res bc digits (entry_state [longs0 3]) = Done r s' ->
     r = Some 0 /\ oom_without_call (entry_state [longs0 3]) s') /\
  (forall h3a res r s',
     Java_com_uber_h3core_NativeMethods_uncompactCellsSize (stub_lib E_SUCCESS [] hexagon (mkLatLng 3 4))
       all_fail h3a res (entry_state [longs0 3]) = Done r s' ->
     r = Some 0 /\ oom_without_call (entry_state [longs0 3]) s') /\
  (forall h3a results u s',
     Java_com_uber_h3core_NativeMethods_compactCells (stub_lib E_SUCCESS [] hexagon (mkLatLng 3 4))
       all_fail h3a results (entry_state [longs0 3]) = Done u s' ->
     oom_without_call (entry_state [longs0 3]) s') /\
  (forall h3a res results u s',
     Java_com_uber_h3core_NativeMethods_uncompactCells (stub_lib E_SUCCESS [] hexagon (mkLatLng 3 4))
       all_fail h3a res results (entry_state [longs0 3]) = Done u s' ->
     oom_without_call (entry_state [longs0 3]) s') /\
  (forall h3a results u s',
     Java_com_uber_h3core_NativeMethods_cellsToLinkedMultiPolygon
       (stub_lib E_SUCCESS [] hexagon (mkLatLng 3 4)) all_fail h3a results (entry_state [longs0 3]) =
       Done u s' -> oom_without_call (entry_state [longs0 3]) s') /\
  (forall h vertexes u s',
     Java_com_uber_h3core_NativeMethods_cellToVertexes (stub_lib E_SUCCESS [] hexagon (mkLatLng 3 4))
       all_fail h vertexes (entry_state [longs0 3]) = Done u s' ->
     oom_without_call (entry_state [longs0 3]) s') /\
  (forall verts holeSizes holeVerts res flags results u s',
     Java_com_uber_h3core_NativeMethods_polygonToCells (stub_lib E_SUCCESS [] hexagon (mkLatLng 3 4))
       all_fail verts holeSizes holeVerts res flags results (entry_state [longs0 3]) = Done u s' ->
     oom_without_call (entry_state [longs0 3]) s') /\
  (forall verts holeSizes holeVerts res flags results u s',
     Java_com_uber_h3core_NativeMethods_polygonToCellsExperimental
       (stub_lib E_SUCCESS [] hexagon (mkLatLng 3 4)) all_fail verts holeSizes holeVerts res flags
       results (entry_state [longs0 3]) = Done u s' ->
     oom_without_call (entry_state [longs0 3]) s').
Proof.
  apply (first_pin_failure (stub_lib E_SUCCESS [] hexagon (mkLatLng 3 4)) all_fail
           (entry_state [longs0 3])); reflexivity.
Defined.

(** Witness: two cells and their distances into three-element arrays. *)
Lemma gridDiskDistances_writes_witness :
  exists s', Java_com_uber_h3core_NativeMethods_gridDiskDistances
               (stub_lib E_SUCCESS [1; 2] hexagon (mkLatLng 3 4)) no_failures 7 1 0 1
               (entry_state [longs0 3; repeat (JInt 9) 3]) = Done tt s' /\
    arrays s' = [[JLong 1; JLong 2; JLong 0]; [JInt 0; JInt 0; JInt 9]] /\
    buffers s' = [None; None] /\
    calls s' = [Called "gridDiskDistances" None E_SUCCESS] /\
    (is_err E_SUCCESS = false -> pending s' = None).
Proof.
  apply (gridDiskDistances_writes (stub_lib E_SUCCESS [1; 2] hexagon (mkLatLng 3 4)) no_failures 7 1 0 1
           (entry_state [longs0 3; repeat (JInt 9) 3]) (longs0 3) (repeat (JInt 9) 3));
    vm_compute; first [reflexivity | lia | discriminate].
Defined.

(** Witness: six vertexes into a seven-element array. *)
Lemma cellToVertexes_writes_witness :
  exists s', Java_com_uber_h3core_NativeMethods_cellToVertexes
               (stub_lib E_SUCCESS [1; 2; 3; 4; 5; 6] hexagon (mkLatLng 3 4)) no_failures 7 0
               (entry_state [longs0 7]) = Done tt s' /\
    arrays s' = [[JLong 1; JLong 2; JLong 3; JLong 4; JLong 5; JLong 6; JLong 0]] /\
    buffers s' = [None] /\
    calls s' = [Called "cellToVertexes" None E_SUCCESS] /\
    (is_err E_SUCCESS = false -> pending s' = None).
Proof.
  apply (cellToVertexes_writes (stub_lib E_SUCCESS [1; 2; 3; 4; 5; 6] hexagon (mkLatLng 3 4))
           no_failures 7 0 (entry_state [longs0 7]) (longs0 7));
    vm_compute; first [reflexivity | lia | discriminate].
Defined.

(** Witness: a two-vertex edge boundary into a four-element array. *)
Lemma directedEdgeToBoundary_result_witness :
  exists s',
    Java_com_uber_h3core_NativeMethods_directedEdgeToBoundary
      (stub_lib E_SUCCESS []
         (mkCellBoundary 2 (map (fun k => mkLatLng k (k + 100)) [1; 2; 0; 0; 0; 0; 0; 0; 0; 0]))
         (mkLatLng 3 4)) no_failures 7 0 (entry_state [doubles 4]) =
      Done 2 s' /\
    (is_err E_SUCCESS = true -> 2 = -1) /\
    (is_err E_SUCCESS = false -> no_failures 0 = true -> 2 = -1) /\
    (is_err E_SUCCESS = false -> no_failures 0 = false ->
     cb_wf (mkCellBoundary 2 (map (fun k => mkLatLng k (k + 100)) [1; 2; 0; 0; 0; 0; 0; 0; 0; 0])) ->
     2 = 2 /\ 0 <= 2 <= 10 /\
     exists arr arr', nth_error [doubles 4] 0 = Some arr /\
       nth_error (arrays s') 0 = Some arr' /\ length arr' = length arr /\
       forall k v, Z.of_nat k < 2 -> (2 * k + 1 < length arr)%nat ->
         nth_error (map (fun k => mkLatLng k (k + 100)) [1; 2; 0; 0; 0; 0; 0; 0; 0; 0]) k = Some v ->
         nth_error arr' (2 * k) = Some (JDouble (lat v)) /\
         nth_error arr' (2 * k + 1) = Some (JDouble (lng v))).
Proof.
  eexists; split; [vm_compute; reflexivity|].
  apply (directedEdgeToBoundary_result
           (stub_lib E_SUCCESS []
              (mkCellBoundary 2 (map (fun k => mkLatLng k (k + 100)) [1; 2; 0; 0; 0; 0; 0; 0; 0; 0]))
              (mkLatLng 3 4)) no_failures 7 0 (entry_state [doubles 4])); vm_compute; reflexivity.
Defined.

(** Witness: three polygons, the middle one empty, converted into an empty list. *)
Lemma ConvertLinkedGeoPolygonToManaged_read_back_witness :
  exists ids s', ConvertLinkedGeoPolygonToManaged no_failures
                   [[[mkLatLng 1 2; mkLatLng 3 4]]; []; [[mkLatLng 5 6]; [mkLatLng 7 8]]] 0
                   (mkJState [] [OArrayList []] [] None 0 []) = Done tt s' /\
    nth_error (objects s') 0 = Some (OArrayList ([] ++ ids)) /\
    read_polygons (objects s') ids =
      Some [[[mkLatLng 1 2; mkLatLng 3 4]]; [[mkLatLng 5 6]; [mkLatLng 7 8]]] /\
    pending s' = None /\ arrays s' = [] /\ buffers s' = [] /\ calls s' = [].
Proof.
  apply (ConvertLinkedGeoPolygonToManaged_read_back no_failures
           [[[mkLatLng 1 2; mkLatLng 3 4]]; []; [[mkLatLng 5 6]; [mkLatLng 7 8]]] 0
           (mkJState [] [OArrayList []] [] None 0 []) []); reflexivity.
Defined.

(** Witness: a library call that yields a polygon with a hole, an empty
    polygon and a one-loop polygon, converted into an empty list. *)
Lemma cellsToLinkedMultiPolygon_read_back_witness :
  exists ids s', Java_com_uber_h3core_NativeMethods_cellsToLinkedMultiPolygon
                   (with_polygons (stub_lib E_SUCCESS [1; 2] hexagon (mkLatLng 3 4))
                      ([[mkLatLng 1 2; mkLatLng 3 4; mkLatLng 5 6]; [mkLatLng 7 8]],
                       [[]; [[mkLatLng 9 10]]]))
                   no_failures 0 0 (mkJState [longs0 2] [OArrayList []] [] None 0 []) = Done tt s' /\
    nth_error (objects s') 0 = Some (OArrayList ([] ++ ids)) /\
    read_polygons (objects s') ids =
      Some [[[mkLatLng 1 2; mkLatLng 3 4; mkLatLng 5 6]; [mkLatLng 7 8]]; [[mkLatLng 9 10]]] /\
    pending s' = None /\ arrays s' = [longs0 2] /\ buffers s' = [] ++ [None] /\
    calls s' = [] ++ [Called "cellsToLinkedMultiPolygon" None E_SUCCESS].
Proof.
  apply (cellsToLinkedMultiPolygon_read_back
           (with_polygons (stub_lib E_SUCCESS [1; 2] hexagon (mkLatLng 3 4))
              ([[mkLatLng 1 2; mkLatLng 3 4; mkLatLng 5 6]; [mkLatLng 7 8]],
               [[]; [[mkLatLng 9 10]]]))
           no_failures 0 0 (mkJState [longs0 2] [OArrayList []] [] None 0 []) (longs0 2) []);
    reflexivity.
Defined.
